(** * Coloquent: the [Model] base class

    A shallow embedding of [Model] (identity, attribute and relation
    storage, serialization to a JSON:API write payload, save / create /
    delete / fresh, relation-path enumeration and date attributes),
    together with the properties its specification states about it.

    Conventions of the embedding.
    - A thrown JavaScript exception is the [Throw] case of [Result].
    - A method that talks to the transport returns a [Run]: how the call
      completed (synchronous throw, fulfilled or rejected promise), the
      instance as the call leaves it, and the requests handed to the
      transport, in order.
    - The static members of a concrete model class are a [ModelClass]
      record carried by each instance ([this.constructor]).
    - The relation graph of an instance is a finite tree. *)

From Stdlib Require Import String Ascii List ZArith Bool Lia.
Import ListNotations.
Local Open Scope list_scope.
Local Open Scope string_scope.

Set Implicit Arguments.

(** ** Values and errors *)

(** JavaScript values as they occur in attributes and relation slots.
    Numbers are kept to the integral ones; a [Date] object holds its time
    value in milliseconds, [None] being the invalid date. *)
Inductive JsValue : Type :=
| JsUndefined
| JsNull
| JsBool (b : bool)
| JsNumber (n : Z)
| JsString (s : string)
| JsDate (t : option Z).

(** [if (v)]: the falsy values are undefined, null, false, 0 and ''. *)
Definition truthy (v : JsValue) : bool :=
  match v with
  | JsUndefined | JsNull => false
  | JsBool b => b
  | JsNumber n => negb (n =? 0)%Z
  | JsString s => negb (s =? "")
  | JsDate _ => true
  end.

(** The error of the transport ([AxiosError]). *)
Record AxiosError : Type := mkAxiosError {
  axios_message : string;
  axios_status : option Z
}.

Inductive JsError : Type :=
| Error (message : string)
| TypeError (message : string)
| TransportError (e : AxiosError).

Inductive Result (A : Type) : Type :=
| Ok (a : A)
| Throw (e : JsError).
Arguments Ok {A} a.
Arguments Throw {A} e.

Definition bind {A B : Type} (r : Result A) (k : A -> Result B) : Result B :=
  match r with
  | Ok a => k a
  | Throw e => Throw e
  end.

Notation "'let*' x ':=' r 'in' k" := (bind r (fun x => k))
  (at level 10, x pattern, r at level 100, k at level 200).

(** ** The ordered key-value container ([util/Map]) *)

Module Map.

(** Modelled from the spec: the class [Map] of [util/Map], which [Model]
    imports for [attributes] and [relations], is not among the sources.
    The specification describes it as a minimal associative container
    that preserves insertion order and supports get, set, has, delete,
    iteration and export to a plain mapping. It is modelled as the list
    of its entries in insertion order. *)
Definition t (V : Type) : Type := list (string * V).

Section Operations.
Variable V : Type.

Definition empty : t V := [].

Fixpoint get (m : t V) (key : string) : option V :=
  match m with
  | [] => None
  | (k, v) :: rest => if k =? key then Some v else get rest key
  end.

Definition has (m : t V) (key : string) : bool :=
  match get m key with Some _ => true | None => false end.

(** Writing an existing key keeps its place; a new key goes last. *)
Fixpoint set (m : t V) (key : string) (value : V) : t V :=
  match m with
  | [] => [(key, value)]
  | (k, v) :: rest =>
      if k =? key then (k, value) :: rest else (k, v) :: set rest key value
  end.

Fixpoint delete (m : t V) (key : string) : t V :=
  match m with
  | [] => []
  | (k, v) :: rest =>
      if k =? key then delete rest key else (k, v) :: delete rest key
  end.

(** The keys in iteration order ([for (let key in m.toArray())]). *)
Definition keys (m : t V) : list string := map fst m.

(** Export to a plain mapping. *)
Definition toArray (m : t V) : t V := m.

(** Each key is stored once. *)
Definition wf (m : t V) : Prop := NoDup (keys m).

End Operations.

End Map.

(** A plain JavaScript object literal ([{}] filled by [o[key] = value]) has
    the same shape as the container. *)
Abbreviation JsObject := Map.t.

(** ** Wire data *)

(** The instance field [id: string | undefined]; [hasId] also tests it
    against [null]. *)
Inductive ApiId : Type :=
| IdUndefined
| IdNull
| IdString (s : string).

(** String conversion of an identity, as done by ['/' + this.id]. *)
Definition ApiId_toString (i : ApiId) : string :=
  match i with
  | IdUndefined => "undefined"
  | IdNull => "null"
  | IdString s => s
  end.

(** [if (id)] on an identity. *)
Definition ApiId_truthy (i : ApiId) : bool :=
  match i with
  | IdString s => negb (s =? "")
  | _ => false
  end.

(** A resource identifier [{type, id}]. *)
Record ResourceIdentifier : Type := mkResourceIdentifier {
  ri_type : string;
  ri_id : ApiId
}.

(** A relationship object of the payload: [{data: {type, id}}] or
    [{data: [{type, id}, ...]}]. *)
Inductive Relationship : Type :=
| ToOneRelationship (data : ResourceIdentifier)
| ToManyRelationship (data : list ResourceIdentifier).

(** The object under [payload.data]. The key [id] is only present once it
    has been assigned, hence the option. *)
Record PayloadData : Type := mkPayloadData {
  pd_type : string;
  pd_attributes : JsObject JsValue;
  pd_relationships : JsObject Relationship;
  pd_id : option ApiId
}.

Record Payload : Type := mkPayload { payload_data : PayloadData }.

(** A resource of a response document; [save] and [create] read its [id]
    as [string | undefined]. *)
Record Resource : Type := mkResource {
  resource_type : string;
  resource_id : ApiId;
  resource_attributes : JsObject JsValue
}.

(** The document of a response. [doc_data] is [None] when the member
    [data] cannot be read as an object (no body, undefined or null), so
    that reading [.data.id] raises a [TypeError]. *)
Record Document : Type := mkDocument { doc_data : option Resource }.

Record HttpClientResponse : Type := mkHttpClientResponse {
  getData : Document
}.

(** ** The transport ([HttpClient]) *)

(** The accumulated state of a query that a read request carries. *)
Record Query : Type := mkQuery {
  q_filters : list (string * string);
  q_sorts : list (string * bool);
  q_includes : list string;
  q_limit : option Z;
  q_options : list (string * string)
}.

(** One call on the transport: the verb, the URL and what goes with it. *)
Inductive Request : Type :=
| GetRequest (url : string) (query : Query)
| DeleteRequest (url : string)
| PostRequest (url : string) (data : Payload)
| PatchRequest (url : string) (data : Payload).

(** How a promise settles. *)
Inductive Promise (A : Type) : Type :=
| Resolved (a : A)
| Rejected (e : JsError).
Arguments Resolved {A} a.
Arguments Rejected {A} e.

(** The interface [HttpClient]: a transport answers each request with a
    promise of a response. *)
Definition HttpClient : Type := Request -> Promise HttpClientResponse.

(** The methods of the interface; each call is one request, returned with
    the promise. *)
Definition send (c : HttpClient) (r : Request)
  : Promise HttpClientResponse * list Request := (c r, [r]).

Definition HttpClient_get (c : HttpClient) (url : string) (q : Query) :=
  send c (GetRequest url q).
Definition HttpClient_delete (c : HttpClient) (url : string) :=
  send c (DeleteRequest url).
Definition HttpClient_post (c : HttpClient) (url : string) (data : Payload) :=
  send c (PostRequest url data).
Definition HttpClient_patch (c : HttpClient) (url : string) (data : Payload) :=
  send c (PatchRequest url data).

(** ** Static configuration of a model class *)

(** [s.replace(/\/+$/, '')]: drop the slashes at the end. *)
Fixpoint stripTrailingSlashes (s : string) : string :=
  match s with
  | EmptyString => EmptyString
  | String c rest =>
      match stripTrailingSlashes rest with
      | EmptyString => if Ascii.eqb c "/" then EmptyString else String c EmptyString
      | rest' => String c rest'
      end
  end.

(** [s.replace(/^\/+/, '')]: drop the slashes at the start. *)
Fixpoint stripLeadingSlashes (s : string) : string :=
  match s with
  | String c rest => if Ascii.eqb c "/" then stripLeadingSlashes rest else s
  | EmptyString => EmptyString
  end.

(** The static members of a concrete class that [Model] reads. *)
Record ModelClass : Type := mkModelClass {
  name : string;
  jsonApiBaseUrl : option string;
  _effectiveJsonApiBaseUrl : option string;
  jsonApiType : option string;
  _effectiveJsonApiType : option string;
  endpoint : option string;
  httpClient : option HttpClient;
  _effectiveHttpClient : option HttpClient;
  readOnlyAttributes : list string;
  dates : JsObject string
}.

(** The static getters compute their value on first use and memoize it in
    the class; they return the value and the class as the call leaves it. *)
Definition effectiveJsonApiBaseUrl (C : ModelClass) : Result (string * ModelClass) :=
  match _effectiveJsonApiBaseUrl C with
  | Some url => Ok (url, C)
  | None =>
      match jsonApiBaseUrl C with
      | None =>
          Throw (Error ("Expected " ++ name C ++
                        " to have static property 'jsonApiBaseUrl' defined"))
      | Some base =>
          let url := stripTrailingSlashes base in
          Ok (url,
              mkModelClass (name C) (jsonApiBaseUrl C) (Some url)
                (jsonApiType C) (_effectiveJsonApiType C) (endpoint C)
                (httpClient C) (_effectiveHttpClient C)
                (readOnlyAttributes C) (dates C))
      end
  end.

Definition effectiveJsonApiType (C : ModelClass) : Result (string * ModelClass) :=
  match _effectiveJsonApiType C with
  | Some ty => Ok (ty, C)
  | None =>
      match jsonApiType C with
      | None =>
          Throw (Error ("Expected " ++ name C ++
                        " to have property expect jsonApiType defined"))
      | Some ty =>
          Ok (ty,
              mkModelClass (name C) (jsonApiBaseUrl C) (_effectiveJsonApiBaseUrl C)
                (jsonApiType C) (Some ty) (endpoint C)
                (httpClient C) (_effectiveHttpClient C)
                (readOnlyAttributes C) (dates C))
      end
  end.

(** [(this.endpoint ?? this.effectiveJsonApiType)] with both ends cleared
    of slashes. *)
Definition effectiveEndpoint (C : ModelClass) : Result (string * ModelClass) :=
  let* (e, C') :=
    match endpoint C with
    | Some e => Ok (e, C)
    | None => effectiveJsonApiType C
    end in
  Ok (stripTrailingSlashes (stripLeadingSlashes e), C').

(** The base URL is read before the endpoint. *)
Definition getJsonApiUrl (C : ModelClass) : Result (string * ModelClass) :=
  let* (base, C1) := effectiveJsonApiBaseUrl C in
  let* (ep, C2) := effectiveEndpoint C1 in
  Ok (base ++ "/" ++ ep, C2).

Section Transport.

(** The transport built by [new AxiosHttpClient()], used by a class that
    configures none. *)
Variable AxiosHttpClient : HttpClient.

Definition effectiveHttpClient (C : ModelClass) : HttpClient * ModelClass :=
  match _effectiveHttpClient C with
  | Some c => (c, C)
  | None =>
      let c := match httpClient C with Some c => c | None => AxiosHttpClient end in
      (c,
       mkModelClass (name C) (jsonApiBaseUrl C) (_effectiveJsonApiBaseUrl C)
         (jsonApiType C) (_effectiveJsonApiType C) (endpoint C)
         (httpClient C) (Some c)
         (readOnlyAttributes C) (dates C))
  end.

End Transport.

(** The value a getter returns, the memoized class put aside. An instance
    carries its class by value, so the methods below read the getters
    through [valueOf]; [effectiveJsonApiType_memo] and its siblings show
    that a second read returns the same value. *)
Definition valueOf {A : Type} (r : Result (A * ModelClass)) : Result A :=
  let* (a, _) := r in Ok a.

(** ** Instances *)

(** What a relation slot holds: a related instance, an array of related
    instances, or any other value (such as undefined or null). *)
Inductive RelationValue (M : Type) : Type :=
| RelModel (m : M)
| RelArray (ms : list M)
| RelOther (v : JsValue).
Arguments RelModel {M} m.
Arguments RelArray {M} ms.
Arguments RelOther {M} v.

#[warnings="-register-all"]
Inductive Model : Type := mkModel {
  constructor : ModelClass;
  id : ApiId;
  attributes : Map.t JsValue;
  relations : Map.t (RelationValue Model)
}.

(** [Array.prototype.indexOf] on a list of strings: the first position of
    [key], or -1. *)
Fixpoint indexOf (l : list string) (key : string) : Z :=
  match l with
  | [] => (-1)%Z
  | x :: rest =>
      if x =? key then 0%Z
      else match indexOf rest key with
           | Zneg _ => (-1)%Z
           | i => (i + 1)%Z
           end
  end.

(** The getter [hasId]. *)
Definition hasId (this : Model) : bool :=
  match id this with
  | IdUndefined => false
  | IdNull => false
  | IdString s => negb (s =? "")
  end.

Definition getApiId (this : Model) : ApiId := id this.

Definition setApiId (this : Model) (i : ApiId) : Model :=
  mkModel (constructor this) i (attributes this) (relations this).

Definition getRelation (this : Model) (relationName : string)
  : RelationValue Model :=
  match Map.get (relations this) relationName with
  | Some r => r
  | None => RelOther JsUndefined
  end.

Definition setRelation (this : Model) (relationName : string)
  (value : RelationValue Model) : Model :=
  mkModel (constructor this) (id this) (attributes this)
    (Map.set (relations this) relationName value).

(** [this.attributes.get(key)]: undefined for a key that is not stored. *)
Definition attributes_get (this : Model) (key : string) : JsValue :=
  match Map.get (attributes this) key with
  | Some v => v
  | None => JsUndefined
  end.

(** ** Serialization *)

Definition serializeRelatedModel (model : Model) : Result ResourceIdentifier :=
  let* ty := valueOf (effectiveJsonApiType (constructor model)) in
  Ok (mkResourceIdentifier ty (id model)).

Definition serializeToOneRelation (model : Model) : Result Relationship :=
  let* data := serializeRelatedModel model in
  Ok (ToOneRelationship data).

(** [models.map((model) => this.serializeRelatedModel(model))] *)
Fixpoint map_serializeRelatedModel (models : list Model)
  : Result (list ResourceIdentifier) :=
  match models with
  | [] => Ok []
  | model :: rest =>
      let* r := serializeRelatedModel model in
      let* rs := map_serializeRelatedModel rest in
      Ok (r :: rs)
  end.

Definition serializeToManyRelation (models : list Model) : Result Relationship :=
  let* data := map_serializeRelatedModel models in
  Ok (ToManyRelationship data).

(** The first loop of [serialize], over the keys of the attributes. *)
Fixpoint serialize_attributes (this : Model) (keys : list string)
  (attributes : JsObject JsValue) : JsObject JsValue :=
  match keys with
  | [] => attributes
  | key :: rest =>
      serialize_attributes this rest
        (if (indexOf (readOnlyAttributes (constructor this)) key =? -1)%Z
         then Map.set attributes key (attributes_get this key)
         else attributes)
  end.

(** The body of the second loop of [serialize]: what the relation stored
    under [key] adds to [relationships]. *)
Definition serialize_relation (this : Model) (key : string)
  (relationships : JsObject Relationship) : Result (JsObject Relationship) :=
  match getRelation this key with
  | RelModel relation =>
      let* r := serializeToOneRelation relation in
      Ok (Map.set relationships key r)
  | RelArray relation =>
      if (0 <? length relation)%nat then
        let* r := serializeToManyRelation relation in
        Ok (Map.set relationships key r)
      else Ok relationships
  | RelOther _ => Ok relationships
  end.

(** The second loop of [serialize], over the keys of the relations. *)
Fixpoint serialize_relationships (this : Model) (keys : list string)
  (relationships : JsObject Relationship) : Result (JsObject Relationship) :=
  match keys with
  | [] => Ok relationships
  | key :: rest =>
      let* relationships' := serialize_relation this key relationships in
      serialize_relationships this rest relationships'
  end.

Definition serialize (this : Model) : Result Payload :=
  let attributes :=
    serialize_attributes this (Map.keys (Map.toArray (attributes this)))
      (Map.empty _) in
  let* relationships :=
    serialize_relationships this (Map.keys (Map.toArray (relations this)))
      (Map.empty _) in
  let* ty := valueOf (effectiveJsonApiType (constructor this)) in
  let data := mkPayloadData ty attributes relationships None in
  Ok (mkPayload
        (if hasId this
         then mkPayloadData (pd_type data) (pd_attributes data)
                (pd_relationships data) (Some (id this))
         else data)).

(** ** Relation paths *)

(** [if (parentRelationName)]: an absent or empty prefix is falsy. *)
Definition prefixed (parentRelationName : option string) (key : string) : string :=
  match parentRelationName with
  | Some parent => if negb (parent =? "") then parent ++ "." ++ key else key
  | None => key
  end.

(** [getRelationsKeys(parentRelationName?)]. The outer loop runs over the
    entries of the relation container; for each key the value read back by
    [getRelation] is the one stored with it. A value that is neither an
    array nor falsy is sent the method, which raises a [TypeError] when it
    is no instance. *)
Fixpoint getRelationsKeys (this : Model) (parentRelationName : option string)
  : Result (list string) :=
  (fix loop (entries : list (string * RelationValue Model))
            (relationNames : list string) {struct entries}
     : Result (list string) :=
     match entries with
     | [] => Ok relationNames
     | (key, relation) :: rest =>
         let relationNames :=
           (relationNames ++ [prefixed parentRelationName key])%list in
         let* relationNames :=
           match relation with
           | RelArray models =>
               (fix forEach (models : list Model) (relationNames : list string)
                  {struct models} : Result (list string) :=
                  match models with
                  | [] => Ok relationNames
                  | model :: models' =>
                      let* sub := getRelationsKeys model (Some key) in
                      forEach models' (relationNames ++ sub)%list
                  end) models relationNames
           | RelModel related =>
               let* sub := getRelationsKeys related (Some key) in
               Ok (relationNames ++ sub)%list
           | RelOther v =>
               if truthy v
               then Throw (TypeError "relation.getRelationsKeys is not a function")
               else Ok relationNames
           end in
         loop rest relationNames
     end) (Map.toArray (relations this)) [].

(** ** Attributes *)

Definition getAttributes (this : Model) : JsObject JsValue :=
  Map.toArray (attributes this).

(** [this.constructor.dates.hasOwnProperty(attributeName)] *)
Definition isDateAttribute (this : Model) (attributeName : string) : bool :=
  Map.has (dates (constructor this)) attributeName.

(** [!n] on the number returned by [Date.parse]: true on NaN ([None]) and
    on zero. *)
Definition not_number (n : option Z) : bool :=
  match n with
  | None => true
  | Some t => (t =? 0)%Z
  end.

Section Dates.

(** The date utilities are those of the platform and of the package
    [php-date-formatter]: [Date.parse(v)] (a time value in milliseconds,
    or NaN as [None]), [new Date(v)], the conversion of a value inside a
    template string, and [parseDate(v, format)] of the formatter. *)
Variable Date_parse : JsValue -> option Z.
Variable Date_new : JsValue -> JsValue.
Variable String_of : JsValue -> string.
Variable parseDate : JsValue -> option string -> JsValue.

Definition getAttributeAsDate (this : Model) (attributeName : string)
  : Result JsValue :=
  if not_number (Date_parse (attributes_get this attributeName))
  then Throw (Error ("Attribute " ++ attributeName ++
                     " cannot be cast to type Date"))
  else Ok (Date_new (attributes_get this attributeName)).

Definition getAttribute (this : Model) (attributeName : string)
  : Result JsValue :=
  if isDateAttribute this attributeName
  then getAttributeAsDate this attributeName
  else Ok (attributes_get this attributeName).

(** The instance after the write, or the error thrown before it. *)
Definition setAttribute (this : Model) (attributeName : string)
  (value : JsValue) : Result Model :=
  let* value :=
    if isDateAttribute this attributeName then
      if not_number (Date_parse value)
      then Throw (Error (String_of value ++ " cannot be cast to type Date"))
      else Ok (parseDate value
                 (Map.get (dates (constructor this)) attributeName))
    else Ok value in
  Ok (mkModel (constructor this) (id this)
        (Map.set (attributes this) attributeName value)
        (relations this)).

End Dates.

(** ** Requests *)

(** How a call of a method that returns a promise completes. *)
Inductive Completion (A : Type) : Type :=
| Thrown (e : JsError)
| Fulfilled (a : A)
| RejectedWith (e : JsError).
Arguments Thrown {A} e.
Arguments Fulfilled {A} a.
Arguments RejectedWith {A} e.

Record Run (A : Type) : Type := mkRun {
  completion : Completion A;
  this_after : Model;
  requests : list Request
}.

(** The result of [save] and [create]:
    [new SaveResponse(response, constructor, response.getData())]. *)
Record SaveResponse : Type := mkSaveResponse {
  save_response : HttpClientResponse;
  save_modelType : ModelClass;
  save_document : Document
}.

(** [response.getData().data.id] *)
Definition idFromJson (response : HttpClientResponse) : Result ApiId :=
  match doc_data (getData response) with
  | Some resource => Ok (resource_id resource)
  | None => Throw (TypeError "Cannot read properties of undefined (reading 'id')")
  end.

(** What [fresh] resolves to: [this | null | undefined]. *)
Inductive Fresh : Type :=
| FreshUndefined
| FreshNull
| FreshModel (model : Model).

(** Modelled from the spec: the class [Builder] is not among the sources.
    The specification gives it a bound entity type and an accumulated
    query; [with] adds one path or an array of paths to the
    relation-inclusion paths and returns the builder; [find(id)] fetches
    the single-resource endpoint [<baseUrl>/<endpointOrType>/<id>] with
    the accumulated state, in one transport call. *)
Record Builder : Type := mkBuilder {
  builder_modelType : ModelClass;
  builder_query : Query
}.

Definition Builder_new (modelType : ModelClass) : Builder :=
  mkBuilder modelType (mkQuery [] [] [] None []).

Definition Builder_with (b : Builder) (paths : list string) : Builder :=
  let q := builder_query b in
  mkBuilder (builder_modelType b)
    (mkQuery (q_filters q) (q_sorts q) (q_includes q ++ paths)%list
       (q_limit q) (q_options q)).

(** [new (this.constructor)]: an instance with no identity and nothing
    stored. *)
Definition Model_new (C : ModelClass) : Model :=
  mkModel C IdUndefined (Map.empty _) (Map.empty _).

(** [query()] *)
Definition query (this : Model) : Builder := Builder_new (constructor this).

Section Methods.

(** The transport of a class that configures none. *)
Variable AxiosHttpClient : HttpClient.

(** Modelled from the spec: the response-to-graph assembly of the
    [Builder] is not among the sources; [assemble b response] stands for
    the data of the singular response wrapper that [find] builds from a
    response, [None] being [null]. *)
Variable assemble : Builder -> HttpClientResponse -> option Model.

(** [this.constructor.effectiveHttpClient] *)
Definition clientOf (this : Model) : HttpClient :=
  fst (effectiveHttpClient AxiosHttpClient (constructor this)).

(** Modelled from the spec: [Builder.find], see [Builder]. *)
Definition Builder_find (b : Builder) (i : string)
  : Completion (option Model) * list Request :=
  let client := fst (effectiveHttpClient AxiosHttpClient (builder_modelType b)) in
  match valueOf (getJsonApiUrl (builder_modelType b)) with
  | Throw e => (Thrown e, [])
  | Ok url =>
      let (promise, sent) := HttpClient_get client (url ++ "/" ++ i) (builder_query b) in
      match promise with
      | Resolved response => (Fulfilled (assemble b response), sent)
      | Rejected e => (RejectedWith e, sent)
      end
  end.

(** The two callbacks that [save] and [create] pass to [then]: on
    success the identity of the response is adopted, on failure the
    error is thrown again. *)
Definition adoptIdentity (this : Model)
  (sent : Promise HttpClientResponse * list Request) : Run SaveResponse :=
  let (promise, log) := sent in
  match promise with
  | Resolved response =>
      match idFromJson response with
      | Ok i =>
          mkRun
            (Fulfilled (mkSaveResponse response (constructor this)
                          (getData response)))
            (setApiId this i) log
      | Throw e => mkRun (RejectedWith e) this log
      end
  | Rejected e => mkRun (RejectedWith e) this log
  end.

Definition create (this : Model) : Run SaveResponse :=
  match serialize this with
  | Throw e => mkRun (Thrown e) this []
  | Ok payload =>
      let client := clientOf this in
      match valueOf (getJsonApiUrl (constructor this)) with
      | Throw e => mkRun (Thrown e) this []
      | Ok url => adoptIdentity this (HttpClient_post client url payload)
      end
  end.

Definition save (this : Model) : Run SaveResponse :=
  if negb (hasId this) then create this
  else
    match serialize this with
    | Throw e => mkRun (Thrown e) this []
    | Ok payload =>
        let client := clientOf this in
        match valueOf (getJsonApiUrl (constructor this)) with
        | Throw e => mkRun (Thrown e) this []
        | Ok url =>
            adoptIdentity this
              (HttpClient_patch client
                 (url ++ "/" ++ ApiId_toString (id this)) payload)
        end
    end.

Definition delete (this : Model) : Run unit :=
  if negb (hasId this)
  then mkRun (Thrown (Error "Cannot delete a model with no ID.")) this []
  else
    let client := clientOf this in
    match valueOf (getJsonApiUrl (constructor this)) with
    | Throw e => mkRun (Thrown e) this []
    | Ok url =>
        let (promise, log) :=
          HttpClient_delete client (url ++ "/" ++ ApiId_toString (id this)) in
        match promise with
        | Resolved _ => mkRun (Fulfilled tt) this log
        | Rejected e => mkRun (RejectedWith e) this log
        end
    end.

Definition fresh (this : Model) : Run Fresh :=
  let model := Model_new (constructor this) in
  match getRelationsKeys this None with
  | Throw e => mkRun (Thrown e) this []
  | Ok keys =>
      let builder := Builder_with (query model) keys in
      if ApiId_truthy (getApiId this) then
        let (found, log) :=
          Builder_find builder (ApiId_toString (getApiId this)) in
        match found with
        | Fulfilled (Some model) => mkRun (Fulfilled (FreshModel model)) this log
        | Fulfilled None => mkRun (Fulfilled FreshNull) this log
        | RejectedWith e => mkRun (RejectedWith e) this log
        | Thrown e => mkRun (Thrown e) this log
        end
      else mkRun (Fulfilled FreshUndefined) this []
  end.

End Methods.

(** ** Populating from a resource *)

Section Populate.

Variable Date_parse : JsValue -> option Z.
Variable String_of : JsValue -> string.
Variable parseDate : JsValue -> option string -> JsValue.

(** The loop of [populateFromResource] over the keys of
    [resource.attributes]: each value is read back under its key and
    written with [setAttribute]. The loop stops at the first write that
    throws; the instance keeps what was written before. *)
Fixpoint populate_attributes (this : Model) (resource : Resource)
  (keys : list string) : Model * option JsError :=
  match keys with
  | [] => (this, None)
  | key :: rest =>
      let value :=
        match Map.get (resource_attributes resource) key with
        | Some v => v
        | None => JsUndefined
        end in
      match setAttribute Date_parse String_of parseDate this key value with
      | Ok this' => populate_attributes this' resource rest
      | Throw e => (this, Some e)
      end
  end.

(** [populateFromResource(resource)]: the instance as the call leaves it,
    and the error thrown, if any. The identity is assigned first. *)
Definition populateFromResource (this : Model) (resource : Resource)
  : Model * option JsError :=
  populate_attributes (setApiId this (resource_id resource)) resource
    (Map.keys (resource_attributes resource)).

End Populate.

(** ** Assignments to the static members of a class *)

(** [C.jsonApiType = v] *)
Definition assign_jsonApiType (C : ModelClass) (v : option string) : ModelClass :=
  mkModelClass (name C) (jsonApiBaseUrl C) (_effectiveJsonApiBaseUrl C)
    v (_effectiveJsonApiType C) (endpoint C)
    (httpClient C) (_effectiveHttpClient C) (readOnlyAttributes C) (dates C).

(** [C.jsonApiBaseUrl = v] *)
Definition assign_jsonApiBaseUrl (C : ModelClass) (v : option string) : ModelClass :=
  mkModelClass (name C) v (_effectiveJsonApiBaseUrl C)
    (jsonApiType C) (_effectiveJsonApiType C) (endpoint C)
    (httpClient C) (_effectiveHttpClient C) (readOnlyAttributes C) (dates C).

(** [C.httpClient = v] *)
Definition assign_httpClient (C : ModelClass) (v : option HttpClient) : ModelClass :=
  mkModelClass (name C) (jsonApiBaseUrl C) (_effectiveJsonApiBaseUrl C)
    (jsonApiType C) (_effectiveJsonApiType C) (endpoint C)
    v (_effectiveHttpClient C) (readOnlyAttributes C) (dates C).

(** ** The axios transport ([httpclient/axios/AxiosHttpClient]) *)

Module Axios.

(** The request configuration that every call passes to axios. *)
Record Config : Type := mkConfig {
  cfg_withCredentials : option bool;
  cfg_headers : list (string * string)
}.

(** One call on the axios instance. *)
Inductive Call : Type :=
| CallGet (url : string) (config : Config)
| CallDelete (url : string) (config : Config)
| CallHead (url : string) (config : Config)
| CallPost (url : string) (data : option Payload) (config : Config)
| CallPut (url : string) (data : option Payload) (config : Config)
| CallPatch (url : string) (data : option Payload) (config : Config).

Section Client.

(** The instances of axios, and the one that [axios.create()] builds. *)
Variable AxiosInstance : Type.
Variable axios_create : AxiosInstance.

Record AxiosHttpClient : Type := mkAxiosHttpClient {
  axiosInstance : AxiosInstance;
  withCredentials : option bool
}.

(** [new AxiosHttpClient(axiosInstance)]; a null or undefined argument is
    [None]. *)
Definition new (instance : option AxiosInstance) : AxiosHttpClient :=
  mkAxiosHttpClient
    (match instance with Some i => i | None => axios_create end) None.

Definition setWithCredentials (this : AxiosHttpClient) (flag : bool)
  : AxiosHttpClient :=
  mkAxiosHttpClient (axiosInstance this) (Some flag).

(** The getter [config]. *)
Definition config (this : AxiosHttpClient) : Config :=
  mkConfig (withCredentials this)
    [("Accept", "application/vnd.api+json");
     ("Content-type", "application/vnd.api+json")].

(** The six verbs: the instance that is called and the call it gets. *)
Definition get (this : AxiosHttpClient) (url : string) : AxiosInstance * Call :=
  (axiosInstance this, CallGet url (config this)).
Definition delete (this : AxiosHttpClient) (url : string) : AxiosInstance * Call :=
  (axiosInstance this, CallDelete url (config this)).
Definition head (this : AxiosHttpClient) (url : string) : AxiosInstance * Call :=
  (axiosInstance this, CallHead url (config this)).
Definition post (this : AxiosHttpClient) (url : string) (data : option Payload)
  : AxiosInstance * Call :=
  (axiosInstance this, CallPost url data (config this)).
Definition put (this : AxiosHttpClient) (url : string) (data : option Payload)
  : AxiosInstance * Call :=
  (axiosInstance this, CallPut url data (config this)).
Definition patch (this : AxiosHttpClient) (url : string) (data : option Payload)
  : AxiosInstance * Call :=
  (axiosInstance this, CallPatch url data (config this)).

Definition getImplementingClient (this : AxiosHttpClient) : AxiosInstance :=
  axiosInstance this.

End Client.

Definition configOf (call : Call) : Config :=
  match call with
  | CallGet _ c | CallDelete _ c | CallHead _ c => c
  | CallPost _ _ c | CallPut _ _ c | CallPatch _ _ c => c
  end.

End Axios.

(** * Vocabulary of the properties *)

(** An instance is persisted when its identity is a defined, non-null,
    non-empty string. *)
Definition persisted (this : Model) : Prop :=
  exists s, id this = IdString s /\ s <> "".

(** The relationship that the relation stored under a key produces. *)
Definition relationship_at (this : Model) (key : string)
  (relationships : JsObject Relationship) : Prop :=
  match getRelation this key with
  | RelModel related =>
      exists ri, serializeRelatedModel related = Ok ri /\
                 Map.get relationships key = Some (ToOneRelationship ri)
  | RelArray ((_ :: _) as models) =>
      exists data, map_serializeRelatedModel models = Ok data /\
                   Map.get relationships key = Some (ToManyRelationship data)
  | RelArray [] | RelOther _ => Map.get relationships key = None
  end.

(** [relationships] holds nothing under [key], or what the relation stored
    under [key] produces. *)
Definition consistent_at (this : Model) (key : string)
  (relationships : JsObject Relationship) : Prop :=
  Map.get relationships key = None \/ relationship_at this key relationships.

(** Induction over the relation tree of an instance. *)
Section ModelInduction.

Variable P : Model -> Prop.

Definition below (relation : RelationValue Model) : Prop :=
  match relation with
  | RelModel related => P related
  | RelArray models => Forall P models
  | RelOther _ => True
  end.

Hypothesis step :
  forall C i attrs rels,
    Forall (fun entry => below (snd entry)) rels -> P (mkModel C i attrs rels).

Fixpoint Model_tree_ind (this : Model) : P this :=
  match this with
  | mkModel C i attrs rels =>
      @step C i attrs rels
        ((fix loop (entries : list (string * RelationValue Model))
            : Forall (fun entry => below (snd entry)) entries :=
            match entries with
            | [] => Forall_nil _
            | (key, relation) :: rest =>
                Forall_cons (key, relation)
                  (match relation return below relation with
                   | RelModel related => Model_tree_ind related
                   | RelArray models =>
                       (fix each (models : list Model) : Forall P models :=
                          match models with
                          | [] => Forall_nil _
                          | model :: models' =>
                              Forall_cons model (Model_tree_ind model)
                                (each models')
                          end) models
                   | RelOther _ => I
                   end)
                  (loop rest)
            end) rels)
  end.

End ModelInduction.

(** The relation slots of the instance and of the instances below it hold
    related instances, arrays of them, or falsy values. *)
Fixpoint relations_wellformed (this : Model) : bool :=
  (fix loop (entries : list (string * RelationValue Model)) : bool :=
     match entries with
     | [] => true
     | (_, relation) :: rest =>
         match relation with
         | RelModel related => relations_wellformed related
         | RelArray models =>
             (fix each (models : list Model) : bool :=
                match models with
                | [] => true
                | model :: models' => relations_wellformed model && each models'
                end) models
         | RelOther v => negb (truthy v)
         end && loop rest
     end) (relations this).

(** The resource identifier of a related instance whose class has a
    type. *)
Definition identifies (model : Model) (ri : ResourceIdentifier) : Prop :=
  exists ty,
    valueOf (effectiveJsonApiType (constructor model)) = Ok ty /\
    ri = mkResourceIdentifier ty (id model).

(** A class whose resource type can be read. *)
Definition typed (C : ModelClass) : bool :=
  match _effectiveJsonApiType C, jsonApiType C with
  | None, None => false
  | _, _ => true
  end.

Definition relation_typed (r : RelationValue Model) : bool :=
  match r with
  | RelModel m => typed (constructor m)
  | RelArray ms => forallb (fun m => typed (constructor m)) ms
  | RelOther _ => true
  end.

(** The class of the instance and the classes of the instances it is
    related to have a resource type. *)
Definition types_configured (this : Model) : bool :=
  typed (constructor this)
  && forallb (fun entry => relation_typed (snd entry)) (relations this).

(** What [save] and [create] leave behind: when the promise is fulfilled
    the identity of the instance is the one read from the response,
    whatever it is, and nothing else has changed; otherwise the instance
    is as it was. *)
Definition identity_adopted (this : Model) (run : Run SaveResponse) : Prop :=
  match completion run with
  | Fulfilled result =>
      exists i,
        idFromJson (save_response result) = Ok i /\
        this_after run = setApiId this i
  | Thrown _ | RejectedWith _ => this_after run = this
  end.

(** ** Sample classes and instances *)

Module Samples.

Definition Artist : ModelClass :=
  mkModelClass "Artist" (Some "http://localhost:3000/api/v1/") None
    (Some "artists") None None None None
    ["created_at"; "updated_at"] [("birthday", "Y-m-d")].

Definition Album : ModelClass :=
  mkModelClass "Album" (Some "http://localhost:3000/api/v1") None
    (Some "albums") None (Some "/records/") None None [] [].

Definition Label : ModelClass :=
  mkModelClass "Label" (Some "http://localhost:3000/api/v1") None
    (Some "labels") None None None None [] [].

Definition album1 : Model :=
  mkModel Album (IdString "7") [("title", JsString "Blue")] [].

Definition album2 : Model :=
  mkModel Album (IdString "9") [("title", JsString "Hejira")] [].

Definition label1 : Model :=
  mkModel Label (IdString "3") [("name", JsString "Asylum")] [].

(** A persisted artist with a to-one, a to-many, an empty and an unset
    relation. *)
Definition artist : Model :=
  mkModel Artist (IdString "1")
    [("name", JsString "Joni"); ("created_at", JsString "2001-02-03");
     ("age", JsNumber 80)]
    [("label", RelModel label1); ("albums", RelArray [album1; album2]);
     ("singles", RelArray []); ("manager", RelOther JsNull)].

Definition artist_payload : Payload :=
  mkPayload
    (mkPayloadData "artists"
       [("name", JsString "Joni"); ("age", JsNumber 80)]
       [("label", ToOneRelationship (mkResourceIdentifier "labels" (IdString "3")));
        ("albums",
         ToManyRelationship
           [mkResourceIdentifier "albums" (IdString "7");
            mkResourceIdentifier "albums" (IdString "9")])]
       (Some (IdString "1"))).

(** The same artist before it is created. *)
Definition new_artist : Model :=
  mkModel Artist IdUndefined (attributes artist) (relations artist).

Definition new_artist_payload : Payload :=
  mkPayload
    (mkPayloadData "artists"
       (pd_attributes (payload_data artist_payload))
       (pd_relationships (payload_data artist_payload))
       None).

(** A post with an author, whose books each have a publisher. *)
Definition Post : ModelClass :=
  mkModelClass "Post" (Some "http://localhost:3000/api/v1") None
    (Some "posts") None None None None [] [].

Definition Author : ModelClass :=
  mkModelClass "Author" (Some "http://localhost:3000/api/v1") None
    (Some "authors") None None None None [] [].

Definition Book : ModelClass :=
  mkModelClass "Book" (Some "http://localhost:3000/api/v1") None
    (Some "books") None None None None [] [].

Definition Publisher : ModelClass :=
  mkModelClass "Publisher" (Some "http://localhost:3000/api/v1") None
    (Some "publishers") None None None None [] [].

Definition publisher1 : Model := mkModel Publisher (IdString "5") [] [].

Definition book1 : Model := mkModel Book (IdString "11") [] [].

Definition author1 : Model :=
  mkModel Author (IdString "2") [] [("books", RelArray [book1])].

(** The post of the specification: [author] is populated and so is the
    [books] of the author. *)
Definition post1 : Model :=
  mkModel Post (IdString "20") [] [("author", RelModel author1)].

Definition book2 : Model :=
  mkModel Book (IdString "12") [] [("publisher", RelModel publisher1)].

Definition author2 : Model :=
  mkModel Author (IdString "2") [] [("books", RelArray [book2])].

(** The same post, one level deeper: the book has a publisher. *)
Definition post2 : Model :=
  mkModel Post (IdString "21") [] [("author", RelModel author2)].

(** A transport that answers every request with a document whose resource
    has no [id]. *)
Definition client_without_id : HttpClient :=
  fun _ =>
    Resolved
      (mkHttpClientResponse
         (mkDocument (Some (mkResource "artists" IdUndefined [])))).

(** A transport that answers every request with the resource 42. *)
Definition client_42 : HttpClient :=
  fun _ =>
    Resolved
      (mkHttpClientResponse
         (mkDocument (Some (mkResource "artists" (IdString "42") [])))).

(** An assembly that finds nothing. *)
Definition assemble_null : Builder -> HttpClientResponse -> option Model :=
  fun _ _ => None.

End Samples.

(** ** A sample of the date utilities *)

Module SampleDates.

(** The value of a decimal digit. *)
Definition digit (c : ascii) : option Z :=
  let n := nat_of_ascii c in
  if ((48 <=? n) && (n <=? 57))%nat then Some (Z.of_nat (n - 48)) else None.

Fixpoint number (cs : list ascii) (acc : Z) : option Z :=
  match cs with
  | [] => Some acc
  | c :: rest =>
      match digit c with
      | Some d => number rest (10 * acc + d)%Z
      | None => None
      end
  end.

Definition leap (y : Z) : bool :=
  ((y mod 4 =? 0) && (negb (y mod 100 =? 0) || (y mod 400 =? 0)))%Z.

Definition daysInMonth (y m : Z) : Z :=
  if (m =? 2)%Z then (if leap y then 29 else 28)%Z
  else if ((m =? 4) || (m =? 6) || (m =? 9) || (m =? 11))%Z then 30%Z
  else 31%Z.

(** The number of days from 1970-01-01 to the given civil date. *)
Definition daysFromCivil (y m d : Z) : Z :=
  let y' := (if m <=? 2 then y - 1 else y)%Z in
  let era := (y' / 400)%Z in
  let yoe := (y' - era * 400)%Z in
  let mp := (if 2 <? m then m - 3 else m + 9)%Z in
  let doy := ((153 * mp + 2) / 5 + d - 1)%Z in
  let doe := (yoe * 365 + yoe / 4 - yoe / 100 + doy)%Z in
  (era * 146097 + doe - 719468)%Z.

(** The time value of a date-only string [YYYY-MM-DD], which ECMAScript
    reads as midnight UTC; NaN for any other string. *)
Definition parseDateOnly (s : string) : option Z :=
  match list_ascii_of_string s with
  | [y1; y2; y3; y4; dash1; m1; m2; dash2; d1; d2] =>
      if (Ascii.eqb dash1 "-" && Ascii.eqb dash2 "-")%bool then
        match number [y1; y2; y3; y4] 0, number [m1; m2] 0, number [d1; d2] 0 with
        | Some y, Some m, Some d =>
            if ((1 <=? m) && (m <=? 12) && (1 <=? d) && (d <=? daysInMonth y m))%Z
            then Some (daysFromCivil y m d * 86400000)%Z
            else None
        | _, _, _ => None
        end
      else None
  | _ => None
  end.

(** [Date.parse] on date-only strings and on date objects. *)
Definition Date_parse (v : JsValue) : option Z :=
  match v with
  | JsString s => parseDateOnly s
  | JsDate t => t
  | _ => None
  end.

Definition Date_new (v : JsValue) : JsValue :=
  match v with
  | JsDate t => JsDate t
  | JsNumber n => JsDate (Some n)
  | _ => JsDate (Date_parse v)
  end.

Definition String_of (v : JsValue) : string :=
  match v with
  | JsString s => s
  | JsUndefined => "undefined"
  | JsNull => "null"
  | JsBool true => "true"
  | JsBool false => "false"
  | JsNumber _ => "[number]"
  | JsDate _ => "[date]"
  end.

(** A formatter that reads the value as [Date.parse] does and returns a
    date object. *)
Definition parseDate (v : JsValue) (format : option string) : JsValue :=
  JsDate (Date_parse v).

End SampleDates.

(** ** Further vocabulary *)

Definition startsWithSlash (s : string) : bool :=
  match s with
  | String c _ => Ascii.eqb c "/"
  | EmptyString => false
  end.

Fixpoint endsWithSlash (s : string) : bool :=
  match s with
  | EmptyString => false
  | String c EmptyString => Ascii.eqb c "/"
  | String _ rest => endsWithSlash rest
  end.

(** A run of [n] slashes. *)
Fixpoint slashes (n : nat) : string :=
  match n with
  | O => EmptyString
  | S n' => String "/" (slashes n')
  end.

(** The number of dots of a path. *)
Fixpoint dots (s : string) : nat :=
  match s with
  | EmptyString => O
  | String c rest => (if Ascii.eqb c "." then 1 else 0) + dots rest
  end.

(** The paths of an instance, entry by entry: the name of the relation
    under the prefix of the caller, then the paths of what the relation
    holds under the name of the relation. *)
Fixpoint relationPaths (this : Model) (parent : option string) : list string :=
  flat_map
    (fun entry =>
       prefixed parent (fst entry) ::
       match snd entry with
       | RelModel related => relationPaths related (Some (fst entry))
       | RelArray models =>
           flat_map (fun model => relationPaths model (Some (fst entry))) models
       | RelOther _ => []
       end)
    (relations this).

(** No relation name of the instance or of the instances below it holds a
    dot. *)
Fixpoint names_without_dots (this : Model) : bool :=
  forallb
    (fun entry =>
       (dots (fst entry) =? 0)%nat &&
       match snd entry with
       | RelModel related => names_without_dots related
       | RelArray models => forallb names_without_dots models
       | RelOther _ => true
       end)
    (relations this).

(** What the relation stored under a key gives to the payload. *)
Definition emitted (relation : RelationValue Model) : bool :=
  match relation with
  | RelModel _ => true
  | RelArray models => (0 <? length models)%nat
  | RelOther _ => false
  end.

(** The string that the endpoint is made of: the member [endpoint], or
    the resource type when [endpoint] is undefined. *)
Definition rawEndpoint (C : ModelClass) (raw : string) : Prop :=
  endpoint C = Some raw \/
  (endpoint C = None /\ valueOf (effectiveJsonApiType C) = Ok raw).

(** What a write stores under an attribute name: the value as the
    formatter returns it for a date attribute, the value itself for any
    other. *)
Definition storedValue (parseDate : JsValue -> option string -> JsValue)
  (C : ModelClass) (attributeName : string) (value : JsValue) : JsValue :=
  if Map.has (dates C) attributeName
  then parseDate value (Map.get (dates C) attributeName)
  else value.

(** [resource.attributes[key]] *)
Definition resource_value (resource : Resource) (key : string) : JsValue :=
  match Map.get (resource_attributes resource) key with
  | Some v => v
  | None => JsUndefined
  end.

(** ** More samples *)

Module MoreSamples.

(** A resource with a plain attribute and a date attribute of [Artist]. *)
Definition resource_nina : Resource :=
  mkResource "artists" (IdString "8")
    [("name", JsString "Nina"); ("birthday", JsString "1933-02-21")].

(** The same resource with the epoch as birthday. *)
Definition resource_epoch : Resource :=
  mkResource "artists" (IdString "8")
    [("name", JsString "Nina"); ("birthday", JsString "1970-01-01")].

(** A class with a base URL and no resource type, and an instance of it. *)
Definition Song : ModelClass :=
  mkModelClass "Song" (Some "http://localhost/") None None None None None None [] [].

Definition song : Model := mkModel Song (IdString "4") [] [].

(** A class with a resource type and no base URL, and an instance of it. *)
Definition Tape : ModelClass :=
  mkModelClass "Tape" None None (Some "tapes") None None None None [] [].

Definition tape : Model := mkModel Tape (IdString "6") [] [].

(** An instance with a relation slot that holds a string. *)
Definition odd_post : Model :=
  mkModel Samples.Post (IdString "22") [] [("author", RelOther (JsString "x"))].

Definition network_error : JsError :=
  TransportError (mkAxiosError "Network Error" None).

(** A transport that rejects every request. *)
Definition client_rejecting : HttpClient := fun _ => Rejected network_error.

(** A transport that answers every request with a document without
    [data]. *)
Definition client_no_data : HttpClient :=
  fun _ => Resolved (mkHttpClientResponse (mkDocument None)).

End MoreSamples.

(** * Properties *)

Unset Implicit Arguments.

(** ** The container *)

Module MapFacts.

Section Facts.
Variable V : Type.
Implicit Types (m : Map.t V) (key : string) (v : V).

Lemma get_set_same m key v : Map.get (Map.set m key v) key = Some v.
Proof.
  induction m as [|[k w] rest IH]; simpl.
  - now rewrite String.eqb_refl.
  - destruct (k =? key) eqn:E; simpl; rewrite E; auto.
Qed.

Lemma get_set_other m key key' v :
  key <> key' -> Map.get (Map.set m key v) key' = Map.get m key'.
Proof.
  intros Hne.
  induction m as [|[k w] rest IH]; simpl.
  - destruct (key =? key') eqn:E; auto.
    apply String.eqb_eq in E. contradiction.
  - destruct (k =? key) eqn:E; simpl.
    + apply String.eqb_eq in E. subst k.
      destruct (key =? key') eqn:E'; auto.
      apply String.eqb_eq in E'. contradiction.
    + destruct (k =? key'); auto.
Qed.

Lemma get_None_keys m key : Map.get m key = None <-> ~ In key (Map.keys m).
Proof.
  unfold Map.keys.
  induction m as [|[k w] rest IH]; simpl.
  - tauto.
  - destruct (k =? key) eqn:E.
    + apply String.eqb_eq in E. split; [discriminate | intros H; exfalso; auto].
    + apply String.eqb_neq in E. rewrite IH. tauto.
Qed.

Lemma get_Some_keys m key v : Map.get m key = Some v -> In key (Map.keys m).
Proof.
  intros H. destruct (in_dec string_dec key (Map.keys m)) as [|Hn]; auto.
  apply get_None_keys in Hn. congruence.
Qed.

Lemma get_empty key : Map.get (Map.empty V) key = None.
Proof. reflexivity. Qed.

(** In a well-formed container an entry is read back under its key. *)
Lemma get_In m key v : Map.wf m -> In (key, v) m -> Map.get m key = Some v.
Proof.
  unfold Map.wf, Map.keys.
  induction m as [|[k w] rest IH]; simpl; intros Hwf Hin; [tauto|].
  inversion Hwf as [|? ? Hnot Hrest]; subst.
  destruct Hin as [Heq | Hin].
  - inversion Heq; subst. now rewrite String.eqb_refl.
  - destruct (k =? key) eqn:E.
    + apply String.eqb_eq in E. subst k. exfalso. apply Hnot.
      change key with (fst (key, v)). now apply in_map.
    + auto.
Qed.

Lemma set_wf m key v : Map.wf m -> Map.wf (Map.set m key v).
Proof.
  unfold Map.wf, Map.keys.
  assert (Hkeys : forall m', forall k', In k' (map fst (Map.set m' key v)) ->
                                   k' = key \/ In k' (map fst m')).
  { induction m' as [|[k w] rest IH]; simpl; intros k' Hin.
    - destruct Hin; auto.
    - destruct (k =? key) eqn:E; simpl in Hin.
      + tauto.
      + destruct Hin as [|Hin]; auto. apply IH in Hin. tauto. }
  induction m as [|[k w] rest IH]; simpl; intros Hwf.
  - constructor; [simpl; tauto | constructor].
  - inversion Hwf as [|? ? Hnot Hrest]; subst.
    destruct (k =? key) eqn:E; simpl.
    + constructor; auto.
    + constructor; auto. intros Hin. apply Hkeys in Hin.
      apply String.eqb_neq in E. destruct Hin; auto.
Qed.

End Facts.

End MapFacts.

Lemma indexOf_ge l key : (-1 <= indexOf l key)%Z.
Proof.
  induction l as [|x rest IH]; simpl; [lia|].
  destruct (x =? key); [lia|].
  destruct (indexOf rest key); lia.
Qed.

Lemma indexOf_absent l key : indexOf l key = (-1)%Z <-> ~ In key l.
Proof.
  induction l as [|x rest IH]; simpl.
  - tauto.
  - destruct (x =? key) eqn:E.
    + apply String.eqb_eq in E. split; [discriminate | intros H; exfalso; auto].
    + apply String.eqb_neq in E.
      pose proof (indexOf_ge rest key) as Hge.
      destruct (indexOf rest key) eqn:Ei.
      * split; [discriminate|]. intros Hn. exfalso.
        assert (Hr : ~ In key rest) by tauto. apply IH in Hr. discriminate.
      * split; [lia|]. intros Hn. exfalso.
        assert (Hr : ~ In key rest) by tauto. apply IH in Hr. discriminate.
      * split; [| reflexivity]. intros _ [H|H]; [auto|].
        assert (Hm : Z.neg p = (-1)%Z) by lia.
        apply IH in Hm. contradiction.
Qed.

(** ** Identity *)

Lemma hasId_persisted this : hasId this = true <-> persisted this.
Proof.
  unfold hasId, persisted. destruct (id this) as [| |s].
  - split; [discriminate | intros (s & H & _); discriminate].
  - split; [discriminate | intros (s & H & _); discriminate].
  - destruct (s =? "") eqn:E; simpl.
    + apply String.eqb_eq in E.
      split; [discriminate | intros (s' & H & Hne); congruence].
    + apply String.eqb_neq in E. split; [eauto | reflexivity].
Qed.

Lemma hasId_not_persisted this : hasId this = false <-> ~ persisted this.
Proof.
  rewrite <- hasId_persisted. destruct (hasId this); split; congruence.
Qed.

(** The identities of the instances that are not persisted. *)
Lemma not_persisted_cases this :
  ~ persisted this <->
  id this = IdUndefined \/ id this = IdNull \/ id this = IdString "".
Proof.
  rewrite <- hasId_not_persisted. unfold hasId.
  destruct (id this) as [| |s]; try (split; [auto | reflexivity]).
  destruct (s =? "") eqn:E; simpl.
  - apply String.eqb_eq in E. subst. split; auto.
  - apply String.eqb_neq in E.
    split; [discriminate | intros [H|[H|H]]; congruence].
Qed.

(** The truth value of [getApiId()] agrees with [hasId]. *)
Lemma getApiId_truthy this : ApiId_truthy (getApiId this) = hasId this.
Proof. unfold getApiId, hasId. now destruct (id this). Qed.

(** In a well-formed relation container, the value that [getRelation]
    reads under the key of an entry is the value of the entry, which is
    what the loop of [getRelationsKeys] works on. *)
Lemma getRelation_of_entry this key relation :
  Map.wf (relations this) ->
  In (key, relation) (relations this) ->
  getRelation this key = relation.
Proof.
  intros Hwf Hin. unfold getRelation.
  now rewrite (MapFacts.get_In _ _ _ _ Hwf Hin).
Qed.

(** ** Memoized getters *)

Lemma effectiveJsonApiType_memo C ty C' :
  effectiveJsonApiType C = Ok (ty, C') -> effectiveJsonApiType C' = Ok (ty, C').
Proof.
  unfold effectiveJsonApiType.
  destruct (_effectiveJsonApiType C) eqn:E.
  - intros H. inversion H; subst. now rewrite E.
  - destruct (jsonApiType C); [|discriminate].
    intros H. inversion H; subst. reflexivity.
Qed.

Lemma effectiveJsonApiBaseUrl_memo C url C' :
  effectiveJsonApiBaseUrl C = Ok (url, C') ->
  effectiveJsonApiBaseUrl C' = Ok (url, C').
Proof.
  unfold effectiveJsonApiBaseUrl.
  destruct (_effectiveJsonApiBaseUrl C) eqn:E.
  - intros H. inversion H; subst. now rewrite E.
  - destruct (jsonApiBaseUrl C); [|discriminate].
    intros H. inversion H; subst. reflexivity.
Qed.

(** Memoizing the base URL leaves the endpoint as it was. *)
Lemma effectiveEndpoint_after_base C url C' :
  effectiveJsonApiBaseUrl C = Ok (url, C') ->
  valueOf (effectiveEndpoint C') = valueOf (effectiveEndpoint C).
Proof.
  unfold effectiveJsonApiBaseUrl.
  destruct (_effectiveJsonApiBaseUrl C) eqn:E.
  - intros H. now inversion H; subst.
  - destruct (jsonApiBaseUrl C); [|discriminate].
    intros H. inversion H; subst.
    unfold effectiveEndpoint, effectiveJsonApiType; simpl.
    destruct (endpoint C); [reflexivity|].
    destruct (_effectiveJsonApiType C); [reflexivity|].
    destruct (jsonApiType C); reflexivity.
Qed.

(** The URL of the collection is [<base>/<endpoint>]. *)
Lemma getJsonApiUrl_shape C url :
  valueOf (getJsonApiUrl C) = Ok url <->
  exists base ep,
    valueOf (effectiveJsonApiBaseUrl C) = Ok base /\
    valueOf (effectiveEndpoint C) = Ok ep /\
    url = base ++ "/" ++ ep.
Proof.
  unfold getJsonApiUrl.
  destruct (effectiveJsonApiBaseUrl C) as [[base C1]|e] eqn:Eb; simpl.
  - rewrite <- (effectiveEndpoint_after_base _ _ _ Eb).
    destruct (effectiveEndpoint C1) as [[ep C2]|e] eqn:Ee; simpl.
    + split.
      * intros H. inversion H. eauto.
      * intros (b & p & Hb & Hp & ->). congruence.
    + split; [discriminate | intros (b & p & _ & Hp & _); discriminate].
  - split; [discriminate | intros (b & p & Hb & _); discriminate].
Qed.

(** ** Serialization *)

Ltac inv H := inversion H; subst; clear H.

(** Case analysis on a [Result] that a hypothesis binds. *)
Tactic Notation "bind_cases" hyp(H) "as" ident(E) :=
  match type of H with
  | context [bind ?r _] => destruct r eqn:E; simpl in H; [| discriminate H]
  end.

Lemma serialize_attributes_get this keys acc key :
  Map.get (serialize_attributes this keys acc) key =
  if existsb (String.eqb key) keys
     && (indexOf (readOnlyAttributes (constructor this)) key =? -1)%Z
  then Some (attributes_get this key)
  else Map.get acc key.
Proof.
  revert acc. induction keys as [|k rest IH]; intros acc; simpl; [reflexivity|].
  rewrite IH. destruct (key =? k) eqn:E; simpl.
  - apply String.eqb_eq in E. subst k.
    destruct (indexOf (readOnlyAttributes (constructor this)) key =? -1)%Z;
      rewrite ?andb_true_r, ?andb_false_r.
    + rewrite MapFacts.get_set_same. now destruct (existsb _ rest).
    + reflexivity.
  - apply String.eqb_neq in E.
    destruct (existsb (String.eqb key) rest
              && (indexOf (readOnlyAttributes (constructor this)) key =? -1)%Z);
      [reflexivity|].
    destruct (indexOf (readOnlyAttributes (constructor this)) k =? -1)%Z;
      [|reflexivity].
    apply MapFacts.get_set_other. congruence.
Qed.

Lemma existsb_eqb_In key keys : existsb (String.eqb key) keys = true <-> In key keys.
Proof.
  rewrite existsb_exists. split.
  - intros (x & Hin & E). apply String.eqb_eq in E. now subst.
  - intros H. exists key. split; [assumption | apply String.eqb_refl].
Qed.

(** What [serialize] returns, part by part. *)
Lemma serialize_Ok this payload :
  serialize this = Ok payload ->
  exists relationships ty,
    serialize_relationships this (Map.keys (relations this)) (Map.empty _)
      = Ok relationships /\
    valueOf (effectiveJsonApiType (constructor this)) = Ok ty /\
    payload =
      mkPayload
        (mkPayloadData ty
           (serialize_attributes this (Map.keys (attributes this)) (Map.empty _))
           relationships
           (if hasId this then Some (id this) else None)).
Proof.
  unfold serialize, Map.toArray. intros H.
  bind_cases H as Er. bind_cases H as Et. inv H.
  exists a, a0. repeat split. now destruct (hasId this).
Qed.

Lemma serializeRelatedModel_Ok model ri :
  serializeRelatedModel model = Ok ri <->
  exists ty, valueOf (effectiveJsonApiType (constructor model)) = Ok ty /\
             ri = mkResourceIdentifier ty (id model).
Proof.
  unfold serializeRelatedModel.
  destruct (valueOf (effectiveJsonApiType (constructor model))) as [ty|e]; simpl.
  - split; [intros H; inv H; eauto | intros (ty' & H & ->); congruence].
  - split; [discriminate | intros (ty' & H & _); discriminate].
Qed.

(** The identifiers of a to-many relationship follow the models one by
    one. *)
Lemma map_serializeRelatedModel_Forall2 models data :
  map_serializeRelatedModel models = Ok data <->
  Forall2 (fun model ri => serializeRelatedModel model = Ok ri) models data.
Proof.
  revert data. induction models as [|model rest IH]; intros data; simpl.
  - split; [intros H; inv H; constructor | intros H; now inv H].
  - split.
    + intros H. bind_cases H as E1. bind_cases H as E2. inv H.
      constructor; [assumption | now apply IH].
    + intros H. inv H. rewrite H2. simpl.
      apply IH in H4. rewrite H4. reflexivity.
Qed.

Lemma serialize_relation_other this k key acc acc' :
  serialize_relation this k acc = Ok acc' -> key <> k ->
  Map.get acc' key = Map.get acc key.
Proof.
  unfold serialize_relation, serializeToOneRelation, serializeToManyRelation.
  intros H Hne.
  destruct (getRelation this k) as [r|ms|v].
  - bind_cases H as E1. inv H. apply MapFacts.get_set_other. congruence.
  - destruct (0 <? length ms)%nat.
    + bind_cases H as E1. inv H. apply MapFacts.get_set_other. congruence.
    + now inv H.
  - now inv H.
Qed.

Lemma relationship_at_ext this key a b :
  Map.get a key = Map.get b key ->
  relationship_at this key a -> relationship_at this key b.
Proof.
  unfold relationship_at. intros <-. exact (fun H => H).
Qed.

Lemma serialize_relation_same this k acc acc' :
  serialize_relation this k acc = Ok acc' ->
  consistent_at this k acc -> relationship_at this k acc'.
Proof.
  unfold serialize_relation, consistent_at, relationship_at,
    serializeToOneRelation, serializeToManyRelation.
  intros H Hacc.
  destruct (getRelation this k) as [r|ms|v].
  - bind_cases H as E1. bind_cases E1 as E2. inv E1. inv H.
    eexists. split; [reflexivity | apply MapFacts.get_set_same].
  - destruct ms as [|m ms].
    + simpl in H. inv H. tauto.
    + replace (0 <? length (m :: ms))%nat with true in H by reflexivity.
      bind_cases H as E1. bind_cases E1 as E2. inv E1. inv H.
      eexists. split; [reflexivity | apply MapFacts.get_set_same].
  - inv H. tauto.
Qed.

Lemma serialize_relationships_get this keys :
  forall acc out,
    serialize_relationships this keys acc = Ok out ->
    forall key,
      consistent_at this key acc ->
      (In key keys -> relationship_at this key out) /\
      (~ In key keys -> Map.get out key = Map.get acc key).
Proof.
  induction keys as [|k rest IH]; intros acc out H key Hacc; simpl in H.
  - inv H. split; [intros [] | reflexivity].
  - bind_cases H as Estep.
    destruct (string_dec key k) as [->|Hne].
    + pose proof (@serialize_relation_same _ _ _ _ Estep Hacc) as Hk.
      destruct (IH _ _ H k (or_intror Hk)) as [Hin Hout].
      split; [intros _ | simpl; tauto].
      destruct (in_dec string_dec k rest) as [Hi|Hn]; [auto|].
      apply relationship_at_ext with (a := a); [symmetry|]; auto.
    + pose proof (@serialize_relation_other _ _ key _ _ Estep Hne) as Hsame.
      assert (Hacc' : consistent_at this key a).
      { destruct Hacc as [Hnone|Hrel]; [left; congruence|].
        right. apply relationship_at_ext with (a := acc); auto. }
      destruct (IH _ _ H key Hacc') as [Hin Hout].
      split.
      * intros [Heq|Hi]; [congruence | auto].
      * intros Hn. rewrite Hout; [assumption|]. simpl in Hn. tauto.
Qed.

(** ** The write payload *)

Example serialize_artist : serialize Samples.artist = Ok Samples.artist_payload.
Proof. reflexivity. Qed.

Example serialize_new_artist : serialize Samples.new_artist = Ok Samples.new_artist_payload.
Proof. reflexivity. Qed.

Example url_Artist :
  valueOf (getJsonApiUrl Samples.Artist) = Ok "http://localhost:3000/api/v1/artists".
Proof. reflexivity. Qed.

Example url_Album :
  valueOf (getJsonApiUrl Samples.Album) = Ok "http://localhost:3000/api/v1/records".
Proof. reflexivity. Qed.

(** C1. The attributes of the payload of [serialize] hold no key of the
    read-only attributes of the class, and hold every other stored
    attribute with the value that is stored. *)
Theorem serialize_attributes_spec (this : Model) (payload : Payload)
  (H : serialize this = Ok payload) :
  (forall key, In key (readOnlyAttributes (constructor this)) ->
               ~ In key (Map.keys (pd_attributes (payload_data payload)))) /\
  (forall key value,
      ~ In key (readOnlyAttributes (constructor this)) ->
      Map.get (attributes this) key = Some value ->
      Map.get (pd_attributes (payload_data payload)) key = Some value).
Proof.
  apply serialize_Ok in H. destruct H as (rels & ty & _ & _ & ->). simpl.
  split.
  - intros key Hro. apply MapFacts.get_None_keys.
    rewrite serialize_attributes_get.
    assert (Hi : (indexOf (readOnlyAttributes (constructor this)) key =? -1)%Z = false).
    { apply Z.eqb_neq. intros Hi. apply indexOf_absent in Hi. contradiction. }
    rewrite Hi, andb_false_r. reflexivity.
  - intros key value Hro Hget.
    rewrite serialize_attributes_get.
    apply indexOf_absent in Hro. rewrite Hro. simpl.
    assert (Hk : existsb (String.eqb key) (Map.keys (attributes this)) = true).
    { apply existsb_eqb_In. eapply MapFacts.get_Some_keys. eassumption. }
    rewrite Hk. simpl. unfold attributes_get. now rewrite Hget.
Qed.

Lemma serialize_attributes_spec_witness :
  serialize Samples.artist = Ok Samples.artist_payload /\
  ~ In "created_at" (Map.keys (pd_attributes (payload_data Samples.artist_payload))) /\
  Map.get (pd_attributes (payload_data Samples.artist_payload)) "age"
    = Some (JsNumber 80).
Proof.
  split; [reflexivity|].
  destruct (serialize_attributes_spec Samples.artist Samples.artist_payload
              eq_refl) as [Hro Hkeep].
  split.
  - apply Hro. simpl. tauto.
  - apply Hkeep; [|reflexivity].
    simpl. intros [H|[H|[]]]; discriminate H.
Defined.

(** The payload holds no attribute that is not stored. *)
Lemma serialize_attributes_stored this payload key :
  serialize this = Ok payload ->
  In key (Map.keys (pd_attributes (payload_data payload))) ->
  In key (Map.keys (attributes this)).
Proof.
  intros H Hin.
  apply serialize_Ok in H. destruct H as (rels & ty & _ & _ & ->).
  simpl in Hin.
  destruct (in_dec string_dec key (Map.keys (attributes this))) as [|Hn]; auto.
  exfalso. revert Hin. apply MapFacts.get_None_keys.
  rewrite serialize_attributes_get.
  destruct (existsb (String.eqb key) (Map.keys (attributes this))) eqn:E.
  - apply existsb_eqb_In in E. contradiction.
  - reflexivity.
Qed.

Lemma serialize_pd_id this payload :
  serialize this = Ok payload ->
  pd_id (payload_data payload) = if hasId this then Some (id this) else None.
Proof.
  intros H. apply serialize_Ok in H. now destruct H as (rels & ty & _ & _ & ->).
Qed.

(** C2. The payload of [serialize] carries the identity of the instance
    under [id] when the instance is persisted, and has no [id] when it is
    not. *)
Theorem serialize_identity (this : Model) (payload : Payload)
  (H : serialize this = Ok payload) :
  (persisted this -> pd_id (payload_data payload) = Some (id this)) /\
  (~ persisted this -> pd_id (payload_data payload) = None).
Proof.
  rewrite (serialize_pd_id _ _ H).
  split; intros Hp.
  - apply hasId_persisted in Hp. now rewrite Hp.
  - apply hasId_not_persisted in Hp. now rewrite Hp.
Qed.

Lemma serialize_identity_witness :
  pd_id (payload_data Samples.artist_payload) = Some (IdString "1") /\
  pd_id (payload_data Samples.new_artist_payload) = None.
Proof.
  split.
  - apply (serialize_identity Samples.artist Samples.artist_payload eq_refl).
    exists "1". split; [reflexivity | discriminate].
  - apply (serialize_identity Samples.new_artist Samples.new_artist_payload eq_refl).
    intros (s & Hs & _). discriminate Hs.
Defined.

(** C3. In the payload of [serialize], a relation that holds one related
    instance is a to-one relationship on its [{type, id}]; a relation that
    holds a non-empty array is a to-many relationship on the [{type, id}]
    of the elements, in their order; a relation that holds an empty array
    or any other value has no key among the relationships. *)
Theorem serialize_relationships_spec (this : Model) (payload : Payload)
  (H : serialize this = Ok payload) :
  forall key value,
    Map.get (relations this) key = Some value ->
    match value with
    | RelModel related =>
        exists ri,
          identifies related ri /\
          Map.get (pd_relationships (payload_data payload)) key
            = Some (ToOneRelationship ri)
    | RelArray ((_ :: _) as models) =>
        exists data,
          Forall2 identifies models data /\
          Map.get (pd_relationships (payload_data payload)) key
            = Some (ToManyRelationship data)
    | RelArray [] | RelOther _ =>
        ~ In key (Map.keys (pd_relationships (payload_data payload)))
    end.
Proof.
  intros key value Hget.
  apply serialize_Ok in H. destruct H as (rels & ty & Hrels & _ & ->). simpl.
  assert (Hin : In key (Map.keys (relations this)))
    by (eapply MapFacts.get_Some_keys; eassumption).
  destruct (serialize_relationships_get _ _ _ _ Hrels key (or_introl eq_refl))
    as [Hat _].
  specialize (Hat Hin). unfold relationship_at, getRelation in Hat.
  rewrite Hget in Hat.
  destruct value as [related|[|m ms]|v].
  - destruct Hat as (ri & Hri & Hk). exists ri. split; [|assumption].
    now apply serializeRelatedModel_Ok.
  - now apply MapFacts.get_None_keys.
  - destruct Hat as (data & Hdata & Hk). exists data. split; [|assumption].
    apply map_serializeRelatedModel_Forall2 in Hdata.
    eapply Forall2_impl; [|eassumption].
    intros a b Hab. now apply serializeRelatedModel_Ok.
  - now apply MapFacts.get_None_keys.
Qed.

Lemma serialize_relationships_spec_witness :
  (exists ri,
      identifies Samples.label1 ri /\
      Map.get (pd_relationships (payload_data Samples.artist_payload)) "label"
        = Some (ToOneRelationship ri)) /\
  (exists data,
      Forall2 identifies [Samples.album1; Samples.album2] data /\
      Map.get (pd_relationships (payload_data Samples.artist_payload)) "albums"
        = Some (ToManyRelationship data)) /\
  ~ In "singles" (Map.keys (pd_relationships (payload_data Samples.artist_payload))) /\
  ~ In "manager" (Map.keys (pd_relationships (payload_data Samples.artist_payload))).
Proof.
  pose proof (serialize_relationships_spec Samples.artist Samples.artist_payload
                eq_refl) as Hspec.
  repeat split.
  - exact (Hspec "label" (RelModel Samples.label1) eq_refl).
  - exact (Hspec "albums" (RelArray [Samples.album1; Samples.album2]) eq_refl).
  - exact (Hspec "singles" (RelArray []) eq_refl).
  - exact (Hspec "manager" (RelOther JsNull) eq_refl).
Defined.

Lemma typed_effectiveJsonApiType C :
  typed C = true -> exists ty, valueOf (effectiveJsonApiType C) = Ok ty.
Proof.
  unfold typed, effectiveJsonApiType.
  destruct (_effectiveJsonApiType C); [eexists; reflexivity|].
  destruct (jsonApiType C); [eexists; reflexivity | discriminate].
Qed.

Lemma map_serializeRelatedModel_returns models :
  forallb (fun m => typed (constructor m)) models = true ->
  exists data, map_serializeRelatedModel models = Ok data.
Proof.
  induction models as [|m rest IH]; simpl; intros H.
  - eexists; reflexivity.
  - apply andb_true_iff in H. destruct H as [Hm Hrest].
    destruct (typed_effectiveJsonApiType _ Hm) as (ty & Hty).
    destruct (IH Hrest) as (data & Hdata).
    unfold serializeRelatedModel. rewrite Hty. simpl. rewrite Hdata. simpl.
    eexists; reflexivity.
Qed.

Lemma getRelation_typed this key :
  forallb (fun entry => relation_typed (snd entry)) (relations this) = true ->
  relation_typed (getRelation this key) = true.
Proof.
  unfold getRelation. induction (relations this) as [|[k r] rest IH]; simpl.
  - reflexivity.
  - intros H. apply andb_true_iff in H. destruct H as [Hr Hrest].
    destruct (k =? key); auto.
Qed.

(** [serialize] returns a payload once the resource types are
    configured. *)
Lemma serialize_returns this :
  types_configured this = true -> exists payload, serialize this = Ok payload.
Proof.
  unfold types_configured. intros H.
  apply andb_true_iff in H. destruct H as [Hthis Hrels].
  assert (Hloop : forall keys acc,
             exists out, serialize_relationships this keys acc = Ok out).
  { induction keys as [|k rest IH]; intros acc; simpl.
    - eexists; reflexivity.
    - pose proof (getRelation_typed this k Hrels) as Hk.
      unfold serialize_relation, serializeToOneRelation, serializeToManyRelation.
      destruct (getRelation this k) as [r|ms|v]; simpl in *.
      + destruct (typed_effectiveJsonApiType _ Hk) as (ty & Hty).
        unfold serializeRelatedModel. rewrite Hty. simpl. apply IH.
      + destruct ms as [|m ms]; [simpl; apply IH|].
        destruct (map_serializeRelatedModel_returns _ Hk) as (data & Hdata).
        replace (0 <? length (m :: ms))%nat with true by reflexivity.
        rewrite Hdata. simpl. apply IH.
      + apply IH. }
  unfold serialize.
  destruct (Hloop (Map.keys (Map.toArray (relations this))) (Map.empty _))
    as (out & Hout).
  rewrite Hout. simpl.
  destruct (typed_effectiveJsonApiType _ Hthis) as (ty & Hty).
  rewrite Hty. simpl. eexists; reflexivity.
Qed.

(** ** Saving, creating, deleting and refreshing *)

Section MethodFacts.

Variable AxiosHttpClient : HttpClient.
Variable assemble : Builder -> HttpClientResponse -> option Model.

Lemma adoptIdentity_requests this promise log :
  requests (adoptIdentity this (promise, log)) = log.
Proof.
  unfold adoptIdentity. destruct promise as [response|e]; [|reflexivity].
  now destruct (idFromJson response).
Qed.

Lemma url_of_parts C base ep :
  valueOf (effectiveJsonApiBaseUrl C) = Ok base ->
  valueOf (effectiveEndpoint C) = Ok ep ->
  valueOf (getJsonApiUrl C) = Ok (base ++ "/" ++ ep).
Proof.
  intros Hb He. apply getJsonApiUrl_shape. eauto.
Qed.

(** C4. [save] on an instance that is not persisted is [create], a POST to
    [<base>/<endpoint>] whose payload has no identity; on a persisted
    instance it is a PATCH to [<base>/<endpoint>/<id>]; the two cases are
    told apart by [persisted] alone. *)
Theorem save_create_or_update (this : Model) (payload : Payload)
  (base ep : string)
  (Hpayload : serialize this = Ok payload)
  (Hbase : valueOf (effectiveJsonApiBaseUrl (constructor this)) = Ok base)
  (Hep : valueOf (effectiveEndpoint (constructor this)) = Ok ep) :
  (~ persisted this ->
     save AxiosHttpClient this = create AxiosHttpClient this /\
     requests (create AxiosHttpClient this)
       = [PostRequest (base ++ "/" ++ ep) payload] /\
     pd_id (payload_data payload) = None) /\
  (persisted this ->
     requests (save AxiosHttpClient this)
       = [PatchRequest ((base ++ "/" ++ ep) ++ "/" ++ ApiId_toString (id this))
            payload]) /\
  (save AxiosHttpClient this = create AxiosHttpClient this <-> ~ persisted this).
Proof.
  pose proof (url_of_parts _ _ _ Hbase Hep) as Hurl.
  assert (Hcreate : requests (create AxiosHttpClient this)
                    = [PostRequest (base ++ "/" ++ ep) payload]).
  { unfold create. rewrite Hpayload, Hurl.
    unfold HttpClient_post, send. apply adoptIdentity_requests. }
  assert (Hsave : persisted this ->
                  requests (save AxiosHttpClient this)
                  = [PatchRequest
                       ((base ++ "/" ++ ep) ++ "/" ++ ApiId_toString (id this))
                       payload]).
  { intros Hp. apply hasId_persisted in Hp.
    unfold save. rewrite Hp. simpl. rewrite Hpayload, Hurl.
    unfold HttpClient_patch, send. apply adoptIdentity_requests. }
  assert (Hnew : ~ persisted this ->
                 save AxiosHttpClient this = create AxiosHttpClient this).
  { intros Hn. apply hasId_not_persisted in Hn.
    unfold save. now rewrite Hn. }
  split; [|split].
  - intros Hn. split; [auto|]. split; [assumption|].
    rewrite (serialize_pd_id _ _ Hpayload).
    apply hasId_not_persisted in Hn. now rewrite Hn.
  - assumption.
  - split; [|assumption].
    intros Heq Hp. specialize (Hsave Hp).
    rewrite Heq, Hcreate in Hsave. discriminate Hsave.
Qed.

Lemma adoptIdentity_adopted this sent : identity_adopted this (adoptIdentity this sent).
Proof.
  unfold identity_adopted, adoptIdentity.
  destruct sent as [[response|e] log]; [|reflexivity].
  destruct (idFromJson response) as [i|e] eqn:E; simpl; [|reflexivity].
  exists i. split; [assumption | reflexivity].
Qed.

Lemma create_adopted this : identity_adopted this (create AxiosHttpClient this).
Proof.
  unfold create.
  destruct (serialize this); [|reflexivity].
  destruct (valueOf (getJsonApiUrl (constructor this))); [|reflexivity].
  apply adoptIdentity_adopted.
Qed.

(** C5, as the code has it. When [save] or [create] resolves, the
    identity of the instance becomes the [data.id] of the response
    document, undefined included; the instance is left as it was when the
    call does not resolve. *)
Theorem save_adopts_response_identity (this : Model) :
  identity_adopted this (save AxiosHttpClient this) /\
  identity_adopted this (create AxiosHttpClient this).
Proof.
  split; [|apply create_adopted].
  unfold save. destruct (hasId this); cbn [negb]; [|apply create_adopted].
  destruct (serialize this); [|reflexivity].
  destruct (valueOf (getJsonApiUrl (constructor this))); [|reflexivity].
  apply adoptIdentity_adopted.
Qed.

(** C8. [delete] on an instance that is not persisted throws the
    precondition error and sends nothing; on a persisted instance it sends
    one DELETE to [<base>/<endpoint>/<id>] and, when the transport
    resolves, is fulfilled with no value. *)
Theorem delete_spec (this : Model) :
  (~ persisted this ->
     completion (delete AxiosHttpClient this)
       = Thrown (Error "Cannot delete a model with no ID.") /\
     requests (delete AxiosHttpClient this) = []) /\
  (persisted this ->
     forall base ep,
       valueOf (effectiveJsonApiBaseUrl (constructor this)) = Ok base ->
       valueOf (effectiveEndpoint (constructor this)) = Ok ep ->
       let request :=
         DeleteRequest ((base ++ "/" ++ ep) ++ "/" ++ ApiId_toString (id this)) in
       requests (delete AxiosHttpClient this) = [request] /\
       forall response,
         clientOf AxiosHttpClient this request = Resolved response ->
         completion (delete AxiosHttpClient this) = Fulfilled tt).
Proof.
  split.
  - intros Hn. apply hasId_not_persisted in Hn.
    unfold delete. rewrite Hn. split; reflexivity.
  - intros Hp base ep Hbase Hep request. apply hasId_persisted in Hp.
    pose proof (url_of_parts _ _ _ Hbase Hep) as Hurl.
    unfold delete. rewrite Hp. cbn [negb]. rewrite Hurl.
    unfold HttpClient_delete, send. fold request.
    split.
    + now destruct (clientOf AxiosHttpClient this request).
    + intros response Hr. now rewrite Hr.
Qed.

(** C10. [delete] on a persisted instance leaves the instance as it was:
    identity, attributes and relations keep their values, and the
    instance is still persisted under its old identity. *)
Theorem delete_keeps_instance (this : Model) (Hp : persisted this) :
  let after := this_after (delete AxiosHttpClient this) in
  id after = id this /\
  attributes after = attributes this /\
  relations after = relations this /\
  persisted after /\
  getApiId after = getApiId this.
Proof.
  assert (Hsame : this_after (delete AxiosHttpClient this) = this).
  { unfold delete. destruct (negb (hasId this)); [reflexivity|].
    destruct (valueOf (getJsonApiUrl (constructor this))); [|reflexivity].
    unfold HttpClient_delete, send.
    now destruct (clientOf AxiosHttpClient this _). }
  simpl. rewrite Hsame. repeat split; assumption.
Qed.

Lemma Builder_find_run b i url :
  valueOf (getJsonApiUrl (builder_modelType b)) = Ok url ->
  let request := GetRequest (url ++ "/" ++ i) (builder_query b) in
  Builder_find AxiosHttpClient assemble b i =
  (match fst (effectiveHttpClient AxiosHttpClient (builder_modelType b)) request with
   | Resolved response => Fulfilled (assemble b response)
   | Rejected e => RejectedWith e
   end, [request]).
Proof.
  intros Hurl request. unfold Builder_find. rewrite Hurl.
  unfold HttpClient_get, send. fold request.
  now destruct (fst (effectiveHttpClient AxiosHttpClient (builder_modelType b)) request).
Qed.


End MethodFacts.

(** ** Date attributes *)

Section DateFacts.

Variable Date_parse : JsValue -> option Z.
Variable Date_new : JsValue -> JsValue.
Variable String_of : JsValue -> string.
Variable parseDate : JsValue -> option string -> JsValue.

(** A write to a date attribute fails exactly on the values that
    [Date.parse] maps to NaN or to zero; any other value is stored as the
    formatter returns it for the format of the attribute. *)
Lemma setAttribute_date this attributeName value :
  isDateAttribute this attributeName = true ->
  setAttribute Date_parse String_of parseDate this attributeName value =
  if not_number (Date_parse value)
  then Throw (Error (String_of value ++ " cannot be cast to type Date"))
  else Ok (mkModel (constructor this) (id this)
             (Map.set (attributes this) attributeName
                (parseDate value
                   (Map.get (dates (constructor this)) attributeName)))
             (relations this)).
Proof.
  intros Hd. unfold setAttribute. rewrite Hd.
  now destruct (not_number (Date_parse value)).
Qed.

(** A write to any other attribute stores the value as it is. *)
Lemma setAttribute_plain this attributeName value :
  isDateAttribute this attributeName = false ->
  setAttribute Date_parse String_of parseDate this attributeName value =
  Ok (mkModel (constructor this) (id this)
        (Map.set (attributes this) attributeName value) (relations this)).
Proof.
  intros Hd. unfold setAttribute. now rewrite Hd.
Qed.

(** A read of a date attribute fails exactly when [Date.parse] maps the
    stored value to NaN or to zero. *)
Lemma getAttribute_date this attributeName :
  isDateAttribute this attributeName = true ->
  getAttribute Date_parse Date_new this attributeName =
  if not_number (Date_parse (attributes_get this attributeName))
  then Throw (Error ("Attribute " ++ attributeName ++
                     " cannot be cast to type Date"))
  else Ok (Date_new (attributes_get this attributeName)).
Proof.
  intros Hd. unfold getAttribute, getAttributeAsDate. now rewrite Hd.
Qed.

(** C7, where the code departs from it. A value that parses as a date with
    time value zero, the epoch, is refused by the write to a date
    attribute. *)
Theorem setAttribute_rejects_epoch (this : Model) (attributeName : string)
  (value : JsValue)
  (Hdate : isDateAttribute this attributeName = true)
  (Hparse : Date_parse value = Some 0%Z) :
  setAttribute Date_parse String_of parseDate this attributeName value
  = Throw (Error (String_of value ++ " cannot be cast to type Date")).
Proof.
  rewrite setAttribute_date by assumption. now rewrite Hparse.
Qed.

(** The read of a date attribute refuses a stored epoch in the same way. *)
Lemma getAttribute_rejects_epoch this attributeName :
  isDateAttribute this attributeName = true ->
  Date_parse (attributes_get this attributeName) = Some 0%Z ->
  getAttribute Date_parse Date_new this attributeName
  = Throw (Error ("Attribute " ++ attributeName ++
                  " cannot be cast to type Date")).
Proof.
  intros Hd Hp. rewrite getAttribute_date by assumption. now rewrite Hp.
Qed.

End DateFacts.

Lemma setAttribute_rejects_epoch_witness :
  SampleDates.Date_parse (JsString "1970-01-01") = Some 0%Z /\
  setAttribute SampleDates.Date_parse SampleDates.String_of
    SampleDates.parseDate Samples.artist "birthday" (JsString "1970-01-01")
  = Throw (Error "1970-01-01 cannot be cast to type Date").
Proof.
  split; [reflexivity|].
  exact (setAttribute_rejects_epoch SampleDates.Date_parse SampleDates.String_of
           SampleDates.parseDate Samples.artist "birthday"
           (JsString "1970-01-01") eq_refl eq_refl).
Defined.

(** ** Relation paths *)

(** [getRelationsKeys] returns on every instance whose relation slots are
    well formed. *)
Lemma getRelationsKeys_returns this :
  forall parent,
    relations_wellformed this = true ->
    exists keys, getRelationsKeys this parent = Ok keys.
Proof.
  induction this as [C i attrs rels IH] using Model_tree_ind.
  intros parent Hwf. simpl in *. unfold Map.toArray.
  match goal with
  | |- exists keys, ?loop rels [] = Ok keys =>
      cut (forall names, exists keys, loop rels names = Ok keys);
      [intros Hloop; apply Hloop|]
  end.
  induction IH as [|[key relation] rest Hhead Hrest IHrest]; intros names.
  - eexists; reflexivity.
  - apply andb_true_iff in Hwf. destruct Hwf as [Hrel Hwf].
    specialize (IHrest Hwf). simpl.
    destruct relation as [related|models|v]; simpl in Hhead.
    + destruct (Hhead (Some key) Hrel) as (sub & Hsub).
      rewrite Hsub. simpl. apply IHrest.
    + assert (Heach : forall acc,
                 exists out,
                   (fix forEach (models : list Model) (relationNames : list string)
                      {struct models} : Result (list string) :=
                      match models with
                      | [] => Ok relationNames
                      | model :: models' =>
                          let* sub := getRelationsKeys model (Some key) in
                          forEach models' (relationNames ++ sub)%list
                      end) models acc = Ok out).
      { clear IHrest Hrest Hwf. induction Hhead as [|model models' Hm Hms IHms];
          intros acc.
        - eexists; reflexivity.
        - apply andb_true_iff in Hrel. destruct Hrel as [Hmodel Hrel].
          destruct (Hm (Some key) Hmodel) as (sub & Hsub).
          rewrite Hsub. simpl. apply IHms. assumption. }
      destruct (Heach (names ++ [prefixed parent key])%list) as (out & Hout).
      rewrite Hout. simpl. apply IHrest.
    + apply negb_true_iff in Hrel. rewrite Hrel. simpl. apply IHrest.
Qed.

(** The example of the specification: a populated [author] whose [books]
    are populated. *)
Lemma getRelationsKeys_two_levels :
  getRelationsKeys Samples.post1 None = Ok ["author"; "author.books"].
Proof. reflexivity. Qed.

(** One step of the walk over a single to-one relation: the related
    instance is asked for its paths under the name of the relation alone,
    whatever the prefix of the caller. *)
Lemma getRelationsKeys_passes_key C i attrs key related parent sub :
  getRelationsKeys related (Some key) = Ok sub ->
  getRelationsKeys (mkModel C i attrs [(key, RelModel related)]) parent
  = Ok (prefixed parent key :: sub).
Proof.
  intros Hsub. simpl. rewrite Hsub. reflexivity.
Qed.

(** C6, where the code departs from it. Below the second level a path is
    prefixed by the name of its parent relation only: the publisher of the
    books of the author is listed as [books.publisher], not as
    [author.books.publisher]. *)
Theorem getRelationsKeys_third_level :
  getRelationsKeys Samples.post2 None
  = Ok ["author"; "author.books"; "books.publisher"].
Proof. reflexivity. Qed.

(** ** Concrete runs *)

(** C5 as stated fails: a persisted instance that is saved, with a
    response whose resource has no [id], loses its identity. *)
Lemma save_without_response_id_counterexample :
  let this := Samples.artist in
  let run := save Samples.client_without_id this in
  (exists result,
      completion run = Fulfilled result /\
      idFromJson (save_response result) = Ok IdUndefined) /\
  id this = IdString "1" /\
  id (this_after run) = IdUndefined /\
  id (this_after run) <> id this.
Proof.
  simpl. split; [|split; [reflexivity | split; [reflexivity | discriminate]]].
  eexists. split; reflexivity.
Qed.

(** [create] called on the same instance loses it as well. *)
Lemma create_without_response_id :
  id (this_after (create Samples.client_without_id Samples.artist)) = IdUndefined.
Proof. reflexivity. Qed.

Lemma save_create_or_update_witness :
  requests (save Samples.client_42 Samples.artist)
  = [PatchRequest "http://localhost:3000/api/v1/artists/1" Samples.artist_payload] /\
  requests (create Samples.client_42 Samples.new_artist)
  = [PostRequest "http://localhost:3000/api/v1/artists" Samples.new_artist_payload] /\
  save Samples.client_42 Samples.new_artist
  = create Samples.client_42 Samples.new_artist.
Proof.
  destruct (save_create_or_update Samples.client_42 Samples.artist
              Samples.artist_payload "http://localhost:3000/api/v1" "artists"
              eq_refl eq_refl eq_refl) as (_ & Hpatch & _).
  destruct (save_create_or_update Samples.client_42 Samples.new_artist
              Samples.new_artist_payload "http://localhost:3000/api/v1" "artists"
              eq_refl eq_refl eq_refl) as (Hpost & _ & _).
  split.
  - apply Hpatch. exists "1". split; [reflexivity | discriminate].
  - assert (Hn : ~ persisted Samples.new_artist)
      by (intros (s & Hs & _); discriminate Hs).
    destruct (Hpost Hn) as (Heq & Hreq & _). split; assumption.
Defined.

Lemma save_adopts_response_identity_witness :
  identity_adopted Samples.artist (save Samples.client_42 Samples.artist) /\
  id (this_after (save Samples.client_42 Samples.artist)) = IdString "42".
Proof.
  split.
  - exact (proj1 (save_adopts_response_identity Samples.client_42 Samples.artist)).
  - reflexivity.
Defined.

Lemma delete_spec_witness :
  requests (delete Samples.client_42 Samples.artist)
  = [DeleteRequest "http://localhost:3000/api/v1/artists/1"] /\
  completion (delete Samples.client_42 Samples.artist) = Fulfilled tt /\
  completion (delete Samples.client_42 Samples.new_artist)
  = Thrown (Error "Cannot delete a model with no ID.") /\
  requests (delete Samples.client_42 Samples.new_artist) = [].
Proof.
  destruct (delete_spec Samples.client_42 Samples.artist) as [_ Hyes].
  destruct (delete_spec Samples.client_42 Samples.new_artist) as [Hno _].
  assert (Hp : persisted Samples.artist)
    by (exists "1"; split; [reflexivity | discriminate]).
  assert (Hn : ~ persisted Samples.new_artist)
    by (intros (s & Hs & _); discriminate Hs).
  destruct (Hyes Hp "http://localhost:3000/api/v1" "artists" eq_refl eq_refl)
    as [Hreq Hdone].
  split; [exact Hreq|]. split; [exact (Hdone _ eq_refl)|]. exact (Hno Hn).
Defined.

Lemma delete_keeps_instance_witness :
  persisted Samples.artist /\
  id (this_after (delete Samples.client_42 Samples.artist)) = IdString "1" /\
  persisted (this_after (delete Samples.client_42 Samples.artist)).
Proof.
  assert (Hp : persisted Samples.artist)
    by (exists "1"; split; [reflexivity | discriminate]).
  destruct (delete_keeps_instance Samples.client_42 Samples.artist Hp)
    as (Hid & _ & _ & Hafter & _).
  split; [exact Hp|]. split; [exact Hid | exact Hafter].
Defined.


(** * Further properties *)

(** ** Slashes and URLs *)

Lemma append_assoc_string (a b c : string) : (a ++ b) ++ c = a ++ (b ++ c).
Proof. induction a as [|x a IH]; simpl; [reflexivity | now rewrite IH]. Qed.

Lemma append_empty_r (a : string) : a ++ "" = a.
Proof. induction a as [|x a IH]; simpl; [reflexivity | now rewrite IH]. Qed.

(** [replace(/\/+$/, '')] removes a run of slashes at the end, and the
    whole of it. *)
Lemma stripTrailingSlashes_run s :
  exists n,
    s = stripTrailingSlashes s ++ slashes n /\
    endsWithSlash (stripTrailingSlashes s) = false.
Proof.
  induction s as [|c rest (n & Hrest & Hend)]; simpl.
  - exists O. split; reflexivity.
  - destruct (stripTrailingSlashes rest) as [|a r] eqn:E.
    + simpl in Hrest. destruct (Ascii.eqb c "/") eqn:Ec.
      * apply Ascii.eqb_eq in Ec. subst c. exists (S n). simpl.
        split; [now rewrite Hrest at 1 | reflexivity].
      * exists n. simpl. split; [now rewrite Hrest at 1 | assumption].
    + exists n. split.
      * simpl. simpl in Hrest. now rewrite Hrest at 1.
      * simpl in *. assumption.
Qed.

(** [replace(/^\/+/, '')] removes a run of slashes at the start, and the
    whole of it. *)
Lemma stripLeadingSlashes_run s :
  exists n,
    s = slashes n ++ stripLeadingSlashes s /\
    startsWithSlash (stripLeadingSlashes s) = false.
Proof.
  induction s as [|c rest (n & Hrest & Hstart)]; simpl.
  - exists O. split; reflexivity.
  - destruct (Ascii.eqb c "/") eqn:Ec.
    + apply Ascii.eqb_eq in Ec. subst c. exists (S n). simpl.
      split; [now rewrite Hrest at 1 | assumption].
    + exists O. simpl. split; [reflexivity | assumption].
Qed.

Lemma stripTrailingSlashes_start s :
  startsWithSlash s = false -> startsWithSlash (stripTrailingSlashes s) = false.
Proof.
  destruct s as [|c rest]; simpl; [reflexivity|]. intros Hc.
  destruct (stripTrailingSlashes rest); [|assumption].
  now rewrite Hc.
Qed.

(** X1. The first read of the effective base URL returns the declared URL
    without the slashes at its end: what is removed is a run of slashes,
    and what is left does not end in a slash. *)
Theorem effectiveJsonApiBaseUrl_first_read (C : ModelClass) (declared : string)
  (Hfresh : _effectiveJsonApiBaseUrl C = None)
  (Hdeclared : jsonApiBaseUrl C = Some declared) :
  exists url n,
    valueOf (effectiveJsonApiBaseUrl C) = Ok url /\
    declared = url ++ slashes n /\
    endsWithSlash url = false.
Proof.
  destruct (stripTrailingSlashes_run declared) as (n & Hrun & Hend).
  exists (stripTrailingSlashes declared), n.
  unfold effectiveJsonApiBaseUrl. rewrite Hfresh, Hdeclared. simpl.
  repeat split; assumption.
Qed.

Lemma effectiveJsonApiBaseUrl_first_read_witness :
  exists url n,
    valueOf (effectiveJsonApiBaseUrl Samples.Artist) = Ok url /\
    "http://localhost:3000/api/v1/" = url ++ slashes n /\
    endsWithSlash url = false.
Proof.
  exact (effectiveJsonApiBaseUrl_first_read Samples.Artist
           "http://localhost:3000/api/v1/" eq_refl eq_refl).
Defined.

Lemma valueOf_Ok {A : Type} (r : Result (A * ModelClass)) (a : A) :
  valueOf r = Ok a <-> exists C, r = Ok (a, C).
Proof.
  unfold valueOf. destruct r as [[a' C]|e]; simpl.
  - split; [intros H; inv H; eauto | intros (C' & H); now inv H].
  - split; [discriminate | intros (C' & H); discriminate].
Qed.

Lemma effectiveEndpoint_raw C ep :
  valueOf (effectiveEndpoint C) = Ok ep <->
  exists raw, rawEndpoint C raw /\
              ep = stripTrailingSlashes (stripLeadingSlashes raw).
Proof.
  unfold effectiveEndpoint, rawEndpoint.
  destruct (endpoint C) as [e|].
  - simpl. split.
    + intros H. inv H. exists e. split; [now left | reflexivity].
    + intros (raw & [H|[H _]] & ->); [now inv H | discriminate].
  - destruct (effectiveJsonApiType C) as [[ty C']|err]; simpl.
    + split.
      * intros H. inv H. exists ty. split; [now right | reflexivity].
      * intros (raw & [H|[_ H]] & ->); [discriminate | now inv H].
    + split; [discriminate|].
      intros (raw & [H|[_ H]] & _); discriminate.
Qed.

(** X2. The URL of a class whose base URL has not been read before is
    [<base>/<endpoint>] with exactly one slash at the join: the base does
    not end in a slash, and the endpoint is the member [endpoint] (or the
    resource type) without the slashes at its start and at its end. *)
Theorem getJsonApiUrl_slashes (C : ModelClass) (url : string)
  (Hfresh : _effectiveJsonApiBaseUrl C = None)
  (Hurl : valueOf (getJsonApiUrl C) = Ok url) :
  exists base ep raw n m,
    url = base ++ "/" ++ ep /\
    endsWithSlash base = false /\
    rawEndpoint C raw /\
    raw = slashes n ++ ep ++ slashes m /\
    startsWithSlash ep = false /\
    endsWithSlash ep = false.
Proof.
  apply getJsonApiUrl_shape in Hurl.
  destruct Hurl as (base & ep & Hbase & Hep & ->).
  apply effectiveEndpoint_raw in Hep. destruct Hep as (raw & Hraw & ->).
  destruct (stripLeadingSlashes_run raw) as (n & Hlead & Hstart).
  destruct (stripTrailingSlashes_run (stripLeadingSlashes raw)) as (m & Htrail & Hend).
  exists base, (stripTrailingSlashes (stripLeadingSlashes raw)), raw, n, m.
  split; [reflexivity|]. split.
  - unfold effectiveJsonApiBaseUrl in Hbase. rewrite Hfresh in Hbase.
    destruct (jsonApiBaseUrl C) as [declared|]; [|discriminate].
    simpl in Hbase. inv Hbase.
    now destruct (stripTrailingSlashes_run declared) as (k & _ & Hk).
  - split; [assumption|]. split; [|split].
    + rewrite <- Htrail. exact Hlead.
    + now apply stripTrailingSlashes_start.
    + assumption.
Qed.

Lemma getJsonApiUrl_slashes_witness :
  exists base ep raw n m,
    "http://localhost:3000/api/v1/records" = base ++ "/" ++ ep /\
    endsWithSlash base = false /\
    rawEndpoint Samples.Album raw /\
    raw = slashes n ++ ep ++ slashes m /\
    startsWithSlash ep = false /\
    endsWithSlash ep = false.
Proof.
  exact (getJsonApiUrl_slashes Samples.Album
           "http://localhost:3000/api/v1/records" eq_refl eq_refl).
Defined.

(** X3. A static getter keeps the value of its first read: a later
    assignment to [jsonApiType], [jsonApiBaseUrl] or [httpClient] does not
    change what the getter returns. *)
Theorem getters_keep_first_read (AxiosHttpClient : HttpClient) (C : ModelClass) :
  (forall ty C',
      effectiveJsonApiType C = Ok (ty, C') ->
      forall v, valueOf (effectiveJsonApiType (assign_jsonApiType C' v)) = Ok ty) /\
  (forall url C',
      effectiveJsonApiBaseUrl C = Ok (url, C') ->
      forall v,
        valueOf (effectiveJsonApiBaseUrl (assign_jsonApiBaseUrl C' v)) = Ok url) /\
  (forall client C',
      effectiveHttpClient AxiosHttpClient C = (client, C') ->
      forall v,
        fst (effectiveHttpClient AxiosHttpClient (assign_httpClient C' v)) = client).
Proof.
  split; [|split].
  - intros ty C' H v. unfold effectiveJsonApiType in *.
    destruct (_effectiveJsonApiType C) eqn:E.
    + inv H. simpl. now rewrite E.
    + destruct (jsonApiType C); [|discriminate]. now inv H.
  - intros url C' H v. unfold effectiveJsonApiBaseUrl in *.
    destruct (_effectiveJsonApiBaseUrl C) eqn:E.
    + inv H. simpl. now rewrite E.
    + destruct (jsonApiBaseUrl C); [|discriminate]. now inv H.
  - intros client C' H v. unfold effectiveHttpClient in *.
    destruct (_effectiveHttpClient C) eqn:E.
    + inv H. simpl. now rewrite E.
    + now inv H.
Qed.

Lemma getters_keep_first_read_witness :
  valueOf
    (effectiveJsonApiType
       (assign_jsonApiType
          (mkModelClass "Artist" (Some "http://localhost:3000/api/v1/") None
             (Some "artists") (Some "artists") None None None
             ["created_at"; "updated_at"] [("birthday", "Y-m-d")])
          (Some "painters")))
  = Ok "artists".
Proof.
  exact (proj1 (getters_keep_first_read Samples.client_42 Samples.Artist)
           "artists" _ eq_refl (Some "painters")).
Defined.

(** X4. [getJsonApiUrl] reads the base URL first: a class with no base URL
    fails with the error of the base URL whether or not it has a resource
    type; a class with a base URL, no [endpoint] and no resource type
    fails with the error of the resource type. *)
Theorem getJsonApiUrl_errors (C : ModelClass) :
  (_effectiveJsonApiBaseUrl C = None -> jsonApiBaseUrl C = None ->
   getJsonApiUrl C =
   Throw (Error ("Expected " ++ name C ++
                 " to have static property 'jsonApiBaseUrl' defined"))) /\
  (forall base,
      valueOf (effectiveJsonApiBaseUrl C) = Ok base ->
      endpoint C = None ->
      _effectiveJsonApiType C = None -> jsonApiType C = None ->
      getJsonApiUrl C =
      Throw (Error ("Expected " ++ name C ++
                    " to have property expect jsonApiType defined"))).
Proof.
  split.
  - intros Hm Hd. unfold getJsonApiUrl, effectiveJsonApiBaseUrl.
    now rewrite Hm, Hd.
  - intros base Hbase He Hm Hd.
    unfold getJsonApiUrl, effectiveJsonApiBaseUrl in *.
    destruct (_effectiveJsonApiBaseUrl C) as [u|] eqn:Eu; simpl.
    + unfold effectiveEndpoint, effectiveJsonApiType. now rewrite He, Hm, Hd.
    + destruct (jsonApiBaseUrl C) as [d|]; [|discriminate]. simpl.
      unfold effectiveEndpoint, effectiveJsonApiType. simpl.
      now rewrite He, Hm, Hd.
Qed.

Lemma getJsonApiUrl_errors_witness :
  getJsonApiUrl (mkModelClass "Song" None None None None None None None [] [])
  = Throw (Error "Expected Song to have static property 'jsonApiBaseUrl' defined") /\
  getJsonApiUrl
    (mkModelClass "Song" (Some "http://localhost/") None None None None None None [] [])
  = Throw (Error "Expected Song to have property expect jsonApiType defined").
Proof.
  split.
  - exact (proj1 (getJsonApiUrl_errors
                    (mkModelClass "Song" None None None None None None None [] []))
             eq_refl eq_refl).
  - exact (proj2 (getJsonApiUrl_errors
                    (mkModelClass "Song" (Some "http://localhost/") None None None
                       None None None [] []))
             "http://localhost" eq_refl eq_refl eq_refl eq_refl).
Defined.

(** X5. A class that sets [endpoint] needs no resource type for its URL:
    the URL is the base URL, a slash, and [endpoint] without the slashes
    at its ends, whatever the resource type is; an empty [endpoint] is
    used as it is and gives [<base>/]. *)
Theorem getJsonApiUrl_endpoint (C : ModelClass) (base e : string)
  (Hbase : valueOf (effectiveJsonApiBaseUrl C) = Ok base)
  (Hendpoint : endpoint C = Some e) :
  valueOf (getJsonApiUrl C)
  = Ok (base ++ "/" ++ stripTrailingSlashes (stripLeadingSlashes e)) /\
  (e = "" -> valueOf (getJsonApiUrl C) = Ok (base ++ "/")).
Proof.
  assert (Hurl : valueOf (getJsonApiUrl C)
                 = Ok (base ++ "/" ++ stripTrailingSlashes (stripLeadingSlashes e))).
  { apply getJsonApiUrl_shape. exists base, (stripTrailingSlashes (stripLeadingSlashes e)).
    split; [assumption|]. split; [|reflexivity].
    unfold effectiveEndpoint. now rewrite Hendpoint. }
  split; [assumption|]. intros ->. exact Hurl.
Qed.

Lemma getJsonApiUrl_endpoint_witness :
  valueOf
    (getJsonApiUrl
       (mkModelClass "Album" (Some "http://localhost:3000/api/v1") None
          None None (Some "/records/") None None [] []))
  = Ok "http://localhost:3000/api/v1/records".
Proof.
  exact (proj1 (getJsonApiUrl_endpoint
                  (mkModelClass "Album" (Some "http://localhost:3000/api/v1") None
                     None None (Some "/records/") None None [] [])
                  "http://localhost:3000/api/v1" "/records/" eq_refl eq_refl)).
Defined.

(** ** Attributes and resources *)

Section AttributeFacts.

Variable Date_parse : JsValue -> option Z.
Variable Date_new : JsValue -> JsValue.
Variable String_of : JsValue -> string.
Variable parseDate : JsValue -> option string -> JsValue.

Local Abbreviation setAttribute' := (setAttribute Date_parse String_of parseDate).
Local Abbreviation getAttribute' := (getAttribute Date_parse Date_new).

(** What a successful write changes, field by field. *)
Lemma setAttribute_Ok this attributeName value this' :
  setAttribute' this attributeName value = Ok this' ->
  this' = mkModel (constructor this) (id this)
            (Map.set (attributes this) attributeName
               (storedValue parseDate (constructor this) attributeName value))
            (relations this).
Proof.
  unfold setAttribute, storedValue, isDateAttribute. intros H.
  destruct (Map.has (dates (constructor this)) attributeName).
  - destruct (not_number (Date_parse value)); simpl in H; [discriminate|].
    now inv H.
  - simpl in H. now inv H.
Qed.

(** A write throws only the cast error of a date attribute. *)
Lemma setAttribute_Throw this attributeName value e :
  setAttribute' this attributeName value = Throw e ->
  isDateAttribute this attributeName = true /\
  not_number (Date_parse value) = true /\
  e = Error (String_of value ++ " cannot be cast to type Date").
Proof.
  unfold setAttribute. intros H.
  destruct (isDateAttribute this attributeName); [|discriminate].
  destruct (not_number (Date_parse value)); simpl in H; [|discriminate].
  inv H. auto.
Qed.

(** X9. A write followed by reads: an attribute that is not a date reads
    back as the value written; no other attribute reads differently than
    before; identity and relations are as before. *)
Theorem setAttribute_then_getAttribute (this this' : Model)
  (attributeName : string) (value : JsValue)
  (Hset : setAttribute' this attributeName value = Ok this') :
  (isDateAttribute this attributeName = false ->
   getAttribute' this' attributeName = Ok value) /\
  (forall other, other <> attributeName ->
                 getAttribute' this' other = getAttribute' this other) /\
  id this' = id this /\
  relations this' = relations this.
Proof.
  apply setAttribute_Ok in Hset. subst this'.
  unfold getAttribute, getAttributeAsDate, isDateAttribute, attributes_get,
    storedValue; simpl.
  split; [|split; [|split; reflexivity]].
  - intros Hd. unfold isDateAttribute in Hd. rewrite Hd.
    now rewrite MapFacts.get_set_same.
  - intros other Hne.
    rewrite MapFacts.get_set_other by congruence. reflexivity.
Qed.

(** X10. A date attribute is read back from what the formatter stored:
    the read parses the stored value again, fails when that gives NaN or
    zero, and otherwise returns a date built from the stored value. *)
Theorem setAttribute_date_then_getAttribute (this this' : Model)
  (attributeName : string) (value : JsValue)
  (Hdate : isDateAttribute this attributeName = true)
  (Hset : setAttribute' this attributeName value = Ok this') :
  let stored :=
    parseDate value (Map.get (dates (constructor this)) attributeName) in
  Map.get (attributes this') attributeName = Some stored /\
  getAttribute' this' attributeName =
  if not_number (Date_parse stored)
  then Throw (Error ("Attribute " ++ attributeName ++
                     " cannot be cast to type Date"))
  else Ok (Date_new stored).
Proof.
  apply setAttribute_Ok in Hset. subst this'.
  unfold getAttribute, getAttributeAsDate, isDateAttribute, attributes_get,
    storedValue in *; simpl.
  rewrite Hdate, MapFacts.get_set_same. split; reflexivity.
Qed.

(** X11. On a platform whose [Date.parse(undefined)] is NaN, reading a
    date attribute that was never written throws. *)
Theorem getAttribute_unset_date (this : Model) (attributeName : string)
  (Hplatform : Date_parse JsUndefined = None)
  (Hdate : isDateAttribute this attributeName = true)
  (Hunset : Map.get (attributes this) attributeName = None) :
  getAttribute' this attributeName =
  Throw (Error ("Attribute " ++ attributeName ++ " cannot be cast to type Date")).
Proof.
  unfold getAttribute, getAttributeAsDate, attributes_get.
  now rewrite Hdate, Hunset, Hplatform.
Qed.

End AttributeFacts.

Section PopulateFacts.

Variable Date_parse : JsValue -> option Z.
Variable String_of : JsValue -> string.
Variable parseDate : JsValue -> option string -> JsValue.

Local Abbreviation populate' :=
  (populateFromResource Date_parse String_of parseDate).
Local Abbreviation populate_loop :=
  (populate_attributes Date_parse String_of parseDate).

Lemma populate_attributes_frame resource keys :
  forall this,
    let after := fst (populate_loop this resource keys) in
    constructor after = constructor this /\
    id after = id this /\
    relations after = relations this.
Proof.
  induction keys as [|key rest IH]; intros this; simpl; [auto|].
  destruct (setAttribute Date_parse String_of parseDate this key _)
    as [this'|e] eqn:E; simpl; [|auto].
  apply setAttribute_Ok in E.
  destruct (IH this') as (Hc & Hi & Hr). subst this'. simpl in *.
  rewrite Hc, Hi, Hr. auto.
Qed.

Lemma populate_attributes_get resource keys :
  forall this after,
    populate_loop this resource keys = (after, None) ->
    forall key,
      Map.get (attributes after) key =
      if existsb (String.eqb key) keys
      then Some (storedValue parseDate (constructor this) key
                   (resource_value resource key))
      else Map.get (attributes this) key.
Proof.
  induction keys as [|k rest IH]; intros this after H key; simpl in *.
  - now inv H.
  - destruct (setAttribute Date_parse String_of parseDate this k _)
      as [this'|e] eqn:E; [|discriminate].
    apply setAttribute_Ok in E.
    rewrite (IH _ _ H key). subst this'. simpl.
    destruct (existsb (String.eqb key) rest); [now rewrite orb_true_r|].
    rewrite orb_false_r.
    destruct (key =? k) eqn:Ek.
    + apply String.eqb_eq in Ek. subst k.
      now rewrite MapFacts.get_set_same.
    + apply String.eqb_neq in Ek.
      apply MapFacts.get_set_other. congruence.
Qed.

Lemma populate_attributes_error resource keys :
  forall this after e,
    populate_loop this resource keys = (after, Some e) ->
    exists key,
      In key keys /\
      Map.has (dates (constructor this)) key = true /\
      not_number (Date_parse (resource_value resource key)) = true /\
      e = Error (String_of (resource_value resource key) ++
                 " cannot be cast to type Date").
Proof.
  induction keys as [|k rest IH]; intros this after e H; simpl in *.
  - discriminate.
  - destruct (setAttribute Date_parse String_of parseDate this k _)
      as [this'|e'] eqn:E.
    + pose proof (setAttribute_Ok _ _ _ _ _ _ _ E) as Hthis'.
      destruct (IH _ _ _ H) as (key & Hin & Hd & Hn & He).
      exists key. subst this'. simpl in Hd. auto.
    + inv H. apply setAttribute_Throw in E. destruct E as (Hd & Hn & He).
      exists k. unfold resource_value. auto.
Qed.

(** X6. [populateFromResource] takes the identity of the resource and
    leaves the relations and the class alone, also when a date attribute
    of the resource makes it throw: the identity is assigned before the
    attributes are written. *)
Theorem populateFromResource_frame (this : Model) (resource : Resource) :
  let after := fst (populate' this resource) in
  id after = resource_id resource /\
  relations after = relations this /\
  constructor after = constructor this.
Proof.
  unfold populateFromResource.
  destruct (populate_attributes_frame resource
              (Map.keys (resource_attributes resource))
              (setApiId this (resource_id resource))) as (Hc & Hi & Hr).
  simpl in *. auto.
Qed.

(** X7. When [populateFromResource] returns, every attribute of the
    resource is stored under its name (as the formatter returns it, for a
    date attribute), and every attribute that the resource does not name
    keeps the value it had: the attributes are merged, not replaced. *)
Theorem populateFromResource_merges (this after : Model) (resource : Resource)
  (Hdone : populate' this resource = (after, None)) :
  forall key,
    Map.get (attributes after) key =
    match Map.get (resource_attributes resource) key with
    | Some value =>
        Some (storedValue parseDate (constructor this) key value)
    | None => Map.get (attributes this) key
    end.
Proof.
  intros key. unfold populateFromResource in Hdone.
  rewrite (populate_attributes_get _ _ _ _ Hdone key). simpl.
  destruct (Map.get (resource_attributes resource) key) as [value|] eqn:E.
  - assert (Hin : existsb (String.eqb key)
                    (Map.keys (resource_attributes resource)) = true)
      by (apply existsb_eqb_In; eapply MapFacts.get_Some_keys; eassumption).
    rewrite Hin. unfold resource_value. now rewrite E.
  - assert (Hout : existsb (String.eqb key)
                     (Map.keys (resource_attributes resource)) = false).
    { destruct (existsb _ _) eqn:Eb; [|reflexivity].
      apply existsb_eqb_In in Eb. apply MapFacts.get_None_keys in E.
      contradiction. }
    now rewrite Hout.
Qed.

(** X8. [populateFromResource] throws only on a date attribute of the
    class whose value in the resource [Date.parse] maps to NaN or to
    zero, with the cast error of that value; on a class with no date
    attributes it never throws. *)
Theorem populateFromResource_error (this : Model) (resource : Resource) :
  (forall after e,
      populate' this resource = (after, Some e) ->
      exists key value,
        Map.get (resource_attributes resource) key = Some value /\
        isDateAttribute this key = true /\
        not_number (Date_parse value) = true /\
        e = Error (String_of value ++ " cannot be cast to type Date")) /\
  (dates (constructor this) = [] -> snd (populate' this resource) = None).
Proof.
  assert (Hfirst : forall after e,
             populate' this resource = (after, Some e) ->
             exists key value,
               Map.get (resource_attributes resource) key = Some value /\
               isDateAttribute this key = true /\
               not_number (Date_parse value) = true /\
               e = Error (String_of value ++ " cannot be cast to type Date")).
  { intros after e H. unfold populateFromResource in H.
    apply populate_attributes_error in H.
    destruct H as (key & Hin & Hd & Hn & He). simpl in Hd.
    unfold resource_value in *.
    destruct (Map.get (resource_attributes resource) key) as [value|] eqn:E.
    - exists key, value. auto.
    - apply MapFacts.get_None_keys in E. contradiction. }
  split; [assumption|].
  intros Hnone.
  destruct (populate' this resource) as [after [e|]] eqn:E; [|reflexivity].
  destruct (Hfirst _ _ eq_refl) as (key & value & _ & Hd & _).
  unfold isDateAttribute in Hd. rewrite Hnone in Hd. discriminate.
Qed.

End PopulateFacts.

(** ** Relation paths, in general *)

(** [getRelationsKeys] on an instance whose relation slots are well formed
    returns the paths entry by entry; on any other instance it throws the
    [TypeError] of the call on a value that is no instance. *)
Lemma getRelationsKeys_paths this :
  forall parent,
    getRelationsKeys this parent =
    if relations_wellformed this
    then Ok (relationPaths this parent)
    else Throw (TypeError "relation.getRelationsKeys is not a function").
Proof.
  induction this as [C i attrs rels IH] using Model_tree_ind.
  intros parent. simpl. unfold Map.toArray.
  match goal with
  | |- ?loop rels [] = if ?wf rels then Ok (flat_map ?f rels) else ?err =>
      cut (forall names,
              loop rels names =
              if wf rels then Ok (names ++ flat_map f rels)%list else err);
      [intros Hloop; apply Hloop|]
  end.
  induction IH as [|[key relation] rest Hhead Hrest IHrest]; intros names.
  - simpl. now rewrite app_nil_r.
  - simpl. destruct relation as [related|models|v]; simpl in Hhead.
    + rewrite Hhead. destruct (relations_wellformed related); simpl; [|reflexivity].
      rewrite IHrest.
      match goal with |- context [if ?b then _ else _] => destruct b end;
        [|reflexivity].
      now rewrite <- !app_assoc.
    + match goal with
      | |- context [?forEach models (names ++ [prefixed parent key])%list] =>
          assert (Heach : forall acc,
                     forEach models acc =
                     if (fix each (models : list Model) : bool :=
                           match models with
                           | [] => true
                           | model :: models' =>
                               relations_wellformed model && each models'
                           end) models
                     then Ok (acc ++ flat_map
                                       (fun model => relationPaths model (Some key))
                                       models)%list
                     else Throw (TypeError "relation.getRelationsKeys is not a function"))
      end.
      { clear IHrest Hrest.
        induction Hhead as [|model models' Hm Hms IHms]; intros acc.
        - simpl. now rewrite app_nil_r.
        - simpl. rewrite Hm.
          destruct (relations_wellformed model); simpl; [|reflexivity].
          rewrite IHms.
          match goal with |- context [if ?b then _ else _] => destruct b end;
            [|reflexivity].
          now rewrite <- !app_assoc. }
      rewrite Heach.
      match goal with |- context [if ?b then _ else _] => destruct b end;
        simpl; [|reflexivity].
      rewrite IHrest.
      match goal with |- context [if ?b then _ else _] => destruct b end;
        [|reflexivity].
      now rewrite <- !app_assoc.
    + destruct (truthy v); simpl; [reflexivity|].
      rewrite IHrest.
      match goal with |- context [if ?b then _ else _] => destruct b end;
        [|reflexivity].
      now rewrite <- !app_assoc.
Qed.

Lemma relationPaths_eq this parent :
  relationPaths this parent =
  flat_map
    (fun entry =>
       prefixed parent (fst entry) ::
       match snd entry with
       | RelModel related => relationPaths related (Some (fst entry))
       | RelArray models =>
           flat_map (fun model => relationPaths model (Some (fst entry))) models
       | RelOther _ => []
       end)
    (relations this).
Proof. now destruct this. Qed.

Lemma names_without_dots_eq this :
  names_without_dots this =
  forallb
    (fun entry =>
       (dots (fst entry) =? 0)%nat &&
       match snd entry with
       | RelModel related => names_without_dots related
       | RelArray models => forallb names_without_dots models
       | RelOther _ => true
       end)
    (relations this).
Proof. now destruct this. Qed.



Lemma getRelationsKeys_Ok this parent keys :
  getRelationsKeys this parent = Ok keys ->
  relations_wellformed this = true /\ keys = relationPaths this parent.
Proof.
  rewrite getRelationsKeys_paths.
  destruct (relations_wellformed this); [|discriminate].
  intros H. now inv H.
Qed.

(** X14. Every name in the relation container is listed by
    [getRelationsKeys], under the prefix of the caller, whatever the
    relation holds: a relation set to null or to an empty array is listed
    like a populated one. *)
Theorem getRelationsKeys_lists_every_relation (this : Model)
  (parent : option string) (keys : list string)
  (Hkeys : getRelationsKeys this parent = Ok keys) :
  forall key value,
    Map.get (relations this) key = Some value ->
    In (prefixed parent key) keys.
Proof.
  intros key value Hget.
  apply getRelationsKeys_Ok in Hkeys. destruct Hkeys as [_ ->].
  rewrite relationPaths_eq. apply in_flat_map.
  apply MapFacts.get_Some_keys in Hget. unfold Map.keys in Hget.
  apply in_map_iff in Hget. destruct Hget as (entry & Hfst & Hin).
  exists entry. split; [assumption|]. subst key. now left.
Qed.

Lemma getRelationsKeys_lists_every_relation_witness :
  In "manager" ["label"; "albums"; "singles"; "manager"] /\
  In "singles" ["label"; "albums"; "singles"; "manager"].
Proof.
  split.
  - exact (getRelationsKeys_lists_every_relation Samples.artist None
             ["label"; "albums"; "singles"; "manager"] eq_refl
             "manager" (RelOther JsNull) eq_refl).
  - exact (getRelationsKeys_lists_every_relation Samples.artist None
             ["label"; "albums"; "singles"; "manager"] eq_refl
             "singles" (RelArray []) eq_refl).
Defined.

Lemma dots_append a b : dots (a ++ b) = (dots a + dots b)%nat.
Proof. induction a as [|c a IH]; simpl; [reflexivity | rewrite IH; lia]. Qed.

Lemma prefixed_dots parent key :
  dots key = O ->
  match parent with Some p => dots p = O | None => True end ->
  (dots (prefixed parent key) <= 1)%nat.
Proof.
  intros Hkey Hparent. unfold prefixed.
  destruct parent as [p|]; [|lia].
  destruct (negb (p =? "")); [|lia].
  rewrite !dots_append. simpl. lia.
Qed.

Lemma relationPaths_dots this :
  forall parent,
    match parent with Some p => dots p = O | None => True end ->
    names_without_dots this = true ->
    forall path, In path (relationPaths this parent) -> (dots path <= 1)%nat.
Proof.
  induction this as [C i attrs rels IH] using Model_tree_ind.
  intros parent Hparent Hnames path Hin.
  rewrite relationPaths_eq in Hin. rewrite names_without_dots_eq in Hnames.
  simpl in Hin, Hnames.
  apply in_flat_map in Hin. destruct Hin as ([key relation] & Hentry & Hpath).
  rewrite forallb_forall in Hnames. specialize (Hnames _ Hentry).
  rewrite Forall_forall in IH. specialize (IH _ Hentry).
  simpl in *. apply andb_true_iff in Hnames. destruct Hnames as [Hkey Hbelow].
  apply Nat.eqb_eq in Hkey.
  destruct Hpath as [<-|Hpath]; [now apply prefixed_dots|].
  destruct relation as [related|models|v]; simpl in IH.
  - now apply (IH (Some key)).
  - apply in_flat_map in Hpath. destruct Hpath as (model & Hmodel & Hpath).
    rewrite Forall_forall in IH. rewrite forallb_forall in Hbelow.
    now apply (IH _ Hmodel (Some key)); [|apply Hbelow|].
  - destruct Hpath.
Qed.

(** X15. When no relation name holds a dot, no path that
    [getRelationsKeys()] returns has more than one dot, however deep the
    relations go: a path names a relation and at most the relation that
    holds it. *)
Theorem getRelationsKeys_two_segments (this : Model) (keys : list string)
  (Hnames : names_without_dots this = true)
  (Hkeys : getRelationsKeys this None = Ok keys) :
  forall path, In path keys -> (dots path <= 1)%nat.
Proof.
  apply getRelationsKeys_Ok in Hkeys. destruct Hkeys as [_ ->].
  now apply relationPaths_dots.
Qed.

Lemma getRelationsKeys_two_segments_witness :
  (dots "books.publisher" <= 1)%nat.
Proof.
  exact (getRelationsKeys_two_segments Samples.post2
           ["author"; "author.books"; "books.publisher"] eq_refl eq_refl
           "books.publisher" (or_intror (or_intror (or_introl eq_refl)))).
Defined.

(** ** More on the write payload *)

Lemma serialize_relationship_at this payload key :
  serialize this = Ok payload ->
  (In key (Map.keys (relations this)) ->
   relationship_at this key (pd_relationships (payload_data payload))) /\
  (~ In key (Map.keys (relations this)) ->
   Map.get (pd_relationships (payload_data payload)) key = None).
Proof.
  intros H. apply serialize_Ok in H. destruct H as (rels & ty & Hrels & _ & ->).
  simpl.
  destruct (serialize_relationships_get _ _ _ _ Hrels key (or_introl eq_refl))
    as [Hin Hout].
  split; [assumption|]. intros Hn. now rewrite (Hout Hn).
Qed.

Lemma relationship_at_unique this that key a b :
  getRelation this key = getRelation that key ->
  relationship_at this key a -> relationship_at that key b ->
  Map.get a key = Map.get b key.
Proof.
  unfold relationship_at. intros <-.
  destruct (getRelation this key) as [related|[|m ms]|v].
  - intros (ri & Hri & ->) (ri' & Hri' & ->). congruence.
  - congruence.
  - intros (data & Hd & ->) (data' & Hd' & ->). congruence.
  - congruence.
Qed.

Lemma serialize_attributes_ext a b keys :
  constructor a = constructor b -> attributes a = attributes b ->
  forall acc, serialize_attributes a keys acc = serialize_attributes b keys acc.
Proof.
  intros Hc Ha. induction keys as [|k rest IH]; intros acc; simpl; [reflexivity|].
  unfold attributes_get. now rewrite Hc, Ha, IH.
Qed.

Lemma serialize_relationships_ext a b keys :
  (forall key, getRelation a key = getRelation b key) ->
  forall acc, serialize_relationships a keys acc = serialize_relationships b keys acc.
Proof.
  intros Hr. induction keys as [|k rest IH]; intros acc; simpl; [reflexivity|].
  assert (Hstep : serialize_relation a k acc = serialize_relation b k acc)
    by (unfold serialize_relation; now rewrite Hr).
  rewrite Hstep.
  destruct (serialize_relation b k acc); simpl; [apply IH | reflexivity].
Qed.

Lemma getRelation_setRelation this key value other :
  getRelation (setRelation this key value) other =
  if key =? other then value else getRelation this other.
Proof.
  unfold getRelation, setRelation. simpl.
  destruct (key =? other) eqn:E.
  - apply String.eqb_eq in E. subst. now rewrite MapFacts.get_set_same.
  - apply String.eqb_neq in E. now rewrite MapFacts.get_set_other.
Qed.

Lemma keys_set m key (v : RelationValue Model) other :
  In other (Map.keys (Map.set m key v)) <-> other = key \/ In other (Map.keys m).
Proof.
  unfold Map.keys. induction m as [|[k w] rest IH]; simpl.
  - split; [intros [H|[]]; auto | intros [H|[]]; auto].
  - destruct (k =? key) eqn:E; simpl.
    + apply String.eqb_eq in E. subst k. split; [tauto|].
      intros [H|[H|H]]; auto.
    + rewrite IH. tauto.
Qed.

(** X12. Setting a relation and serializing: a relation set to a value
    that is neither an instance nor a non-empty array (null, undefined,
    an empty array) has no key in the payload, so the payload does not
    tell that the relation was cleared; every other relationship, the
    attributes, the type and the identity of the payload are what they
    were before the relation was set. *)
Theorem setRelation_then_serialize (this : Model) (key : string)
  (value : RelationValue Model) (before after : Payload)
  (Hbefore : serialize this = Ok before)
  (Hafter : serialize (setRelation this key value) = Ok after) :
  (emitted value = false ->
   ~ In key (Map.keys (pd_relationships (payload_data after)))) /\
  (forall other,
      other <> key ->
      Map.get (pd_relationships (payload_data after)) other =
      Map.get (pd_relationships (payload_data before)) other) /\
  pd_attributes (payload_data after) = pd_attributes (payload_data before) /\
  pd_type (payload_data after) = pd_type (payload_data before) /\
  pd_id (payload_data after) = pd_id (payload_data before).
Proof.
  split; [|split].
  - intros Hemit. apply MapFacts.get_None_keys.
    destruct (serialize_relationship_at _ _ key Hafter) as [Hin _].
    assert (Hk : In key (Map.keys (relations (setRelation this key value))))
      by (apply keys_set; now left).
    specialize (Hin Hk). unfold relationship_at in Hin.
    rewrite getRelation_setRelation, String.eqb_refl in Hin.
    destruct value as [m|[|m ms]|v]; simpl in Hemit; try discriminate; assumption.
  - intros other Hne.
    destruct (serialize_relationship_at _ _ other Hafter) as [Hin Hout].
    destruct (serialize_relationship_at _ _ other Hbefore) as [Hin' Hout'].
    assert (Hsame : getRelation (setRelation this key value) other
                    = getRelation this other).
    { rewrite getRelation_setRelation.
      destruct (key =? other) eqn:E; [|reflexivity].
      apply String.eqb_eq in E. congruence. }
    destruct (in_dec string_dec other (Map.keys (relations this))) as [Hi|Hn].
    + apply (relationship_at_unique _ _ _ _ _ Hsame); [apply Hin | now apply Hin'].
      apply keys_set. now right.
    + rewrite (Hout' Hn). apply Hout. intros Hk. apply keys_set in Hk.
      destruct Hk; [congruence | contradiction].
  - apply serialize_Ok in Hbefore. destruct Hbefore as (r1 & t1 & _ & Ht1 & ->).
    apply serialize_Ok in Hafter. destruct Hafter as (r2 & t2 & _ & Ht2 & ->).
    simpl in *. rewrite Ht1 in Ht2. inv Ht2.
    split; [|split; reflexivity].
    now apply serialize_attributes_ext.
Qed.

Lemma setRelation_then_serialize_witness :
  let after :=
    mkPayload
      (mkPayloadData "artists"
         [("name", JsString "Joni"); ("age", JsNumber 80)]
         [("albums",
           ToManyRelationship
             [mkResourceIdentifier "albums" (IdString "7");
              mkResourceIdentifier "albums" (IdString "9")])]
         (Some (IdString "1"))) in
  serialize (setRelation Samples.artist "label" (RelOther JsNull)) = Ok after /\
  ~ In "label" (Map.keys (pd_relationships (payload_data after))) /\
  Map.get (pd_relationships (payload_data after)) "albums" =
  Map.get (pd_relationships (payload_data Samples.artist_payload)) "albums".
Proof.
  intros after. split; [reflexivity|].
  destruct (setRelation_then_serialize Samples.artist "label" (RelOther JsNull)
              Samples.artist_payload after eq_refl eq_refl)
    as (Hcleared & Hothers & _).
  split; [now apply Hcleared | apply Hothers; discriminate].
Defined.







Lemma effectiveJsonApiType_typed C ty :
  valueOf (effectiveJsonApiType C) = Ok ty -> typed C = true.
Proof.
  unfold effectiveJsonApiType, typed.
  destruct (_effectiveJsonApiType C); [reflexivity|].
  destruct (jsonApiType C); [reflexivity | discriminate].
Qed.

Lemma map_serializeRelatedModel_typed models data :
  map_serializeRelatedModel models = Ok data ->
  forallb (fun m => typed (constructor m)) models = true.
Proof.
  revert data. induction models as [|m rest IH]; intros data H; simpl in *.
  - reflexivity.
  - bind_cases H as E1. bind_cases H as E2.
    unfold serializeRelatedModel in E1.
    destruct (valueOf (effectiveJsonApiType (constructor m))) as [ty|e] eqn:E3;
      [|discriminate].
    rewrite (effectiveJsonApiType_typed _ _ E3). simpl. eapply IH. reflexivity.
Qed.

Lemma serialize_relationships_typed this keys :
  forall acc out,
    serialize_relationships this keys acc = Ok out ->
    forall key, In key keys -> relation_typed (getRelation this key) = true.
Proof.
  induction keys as [|k rest IH]; intros acc out H key Hin; simpl in *.
  - destruct Hin.
  - bind_cases H as Estep. destruct Hin as [->|Hin]; [|eapply IH; eassumption].
    unfold serialize_relation, serializeToOneRelation, serializeToManyRelation,
      serializeRelatedModel in Estep.
    destruct (getRelation this key) as [r|ms|v]; simpl.
    + destruct (valueOf (effectiveJsonApiType (constructor r))) as [ty|e] eqn:E3;
        [|discriminate].
      eapply effectiveJsonApiType_typed. eassumption.
    + destruct ms as [|m ms]; [reflexivity|].
      replace (0 <? length (m :: ms))%nat with true in Estep by reflexivity.
      destruct (map_serializeRelatedModel (m :: ms)) as [data|e] eqn:E1;
        [|discriminate].
      eapply map_serializeRelatedModel_typed. eassumption.
    + reflexivity.
Qed.

(** X18. [serialize] returns a payload exactly when the class of the
    instance and the class of every instance it is related to have a
    resource type; a related instance of a class with no resource type
    makes [serialize] throw, whatever else the instance holds. *)
Theorem serialize_returns_iff (this : Model)
  (Hrelations : Map.wf (relations this)) :
  (exists payload, serialize this = Ok payload) <-> types_configured this = true.
Proof.
  split; [|apply serialize_returns].
  intros (payload & H). apply serialize_Ok in H.
  destruct H as (rels & ty & Hrels & Hty & _).
  unfold types_configured. rewrite (effectiveJsonApiType_typed _ _ Hty). simpl.
  apply forallb_forall. intros [key relation] Hin. simpl.
  rewrite <- (getRelation_of_entry this key relation Hrelations Hin).
  eapply serialize_relationships_typed; [eassumption|].
  unfold Map.keys. change key with (fst (key, relation)). now apply in_map.
Qed.

Lemma serialize_returns_iff_witness :
  (exists payload, serialize Samples.artist = Ok payload) <->
  types_configured Samples.artist = true.
Proof.
  assert (Hrelations : Map.wf (relations Samples.artist))
    by (repeat constructor; simpl; intuition discriminate).
  exact (serialize_returns_iff Samples.artist Hrelations).
Defined.

(** ** More on saving, creating, deleting and refreshing *)

Lemma serialize_setApiId this i payload :
  serialize this = Ok payload ->
  serialize (setApiId this i) =
  Ok (mkPayload
        (mkPayloadData (pd_type (payload_data payload))
           (pd_attributes (payload_data payload))
           (pd_relationships (payload_data payload))
           (if ApiId_truthy i then Some i else None))).
Proof.
  intros H. apply serialize_Ok in H. destruct H as (rels & ty & Hrels & Hty & ->).
  unfold serialize, Map.toArray. simpl.
  rewrite (serialize_relationships_ext (setApiId this i) this _
             (fun key => eq_refl)), Hrels.
  simpl. rewrite Hty. simpl.
  rewrite (serialize_attributes_ext (setApiId this i) this _ eq_refl eq_refl).
  unfold hasId. simpl.
  destruct i as [| |s]; simpl; try reflexivity.
  destruct (s =? ""); reflexivity.
Qed.

Section MoreMethodFacts.

Variable AxiosHttpClient : HttpClient.
Variable assemble : Builder -> HttpClientResponse -> option Model.

Local Abbreviation save' := (save AxiosHttpClient).
Local Abbreviation create' := (create AxiosHttpClient).
Local Abbreviation delete' := (delete AxiosHttpClient).
Local Abbreviation fresh' := (fresh AxiosHttpClient assemble).
Local Abbreviation client := (clientOf AxiosHttpClient).

Lemma create_Fulfilled this result :
  completion (create' this) = Fulfilled result ->
  exists payload, serialize this = Ok payload.
Proof.
  unfold create. destruct (serialize this) as [payload|e]; [eauto | discriminate].
Qed.

(** X19. An instance that [create] has given a usable identity is updated
    by the next [save], not created again: when [create] resolves with a
    non-empty [data.id], the instance is persisted under that identity,
    its payload now carries it, and [save] sends one PATCH to
    [<base>/<endpoint>/<that id>]. *)
Theorem create_then_save (this : Model) (result : SaveResponse)
  (s base ep : string)
  (Hcreated : completion (create' this) = Fulfilled result)
  (Hid : idFromJson (save_response result) = Ok (IdString s))
  (Hs : s <> "")
  (Hbase : valueOf (effectiveJsonApiBaseUrl (constructor this)) = Ok base)
  (Hep : valueOf (effectiveEndpoint (constructor this)) = Ok ep) :
  let created := this_after (create' this) in
  persisted created /\
  exists payload,
    serialize created = Ok payload /\
    pd_id (payload_data payload) = Some (IdString s) /\
    requests (save' created)
    = [PatchRequest ((base ++ "/" ++ ep) ++ "/" ++ s) payload].
Proof.
  intros created.
  destruct (create_Fulfilled _ _ Hcreated) as (payload0 & Hpayload0).
  pose proof (create_adopted AxiosHttpClient this) as Hadopted.
  unfold identity_adopted in Hadopted. rewrite Hcreated in Hadopted.
  destruct Hadopted as (i & Hi & Hafter). rewrite Hid in Hi. inv Hi.
  assert (Hcreated' : created = setApiId this (IdString s)) by exact Hafter.
  assert (Htruthy : (s =? "") = false) by now apply String.eqb_neq.
  split.
  - rewrite Hcreated'. exists s. split; [reflexivity | assumption].
  - pose proof (serialize_setApiId this (IdString s) _ Hpayload0) as Hser.
    simpl in Hser. rewrite Htruthy in Hser. simpl in Hser.
    rewrite <- Hcreated' in Hser.
    eexists. split; [exact Hser|]. split; [reflexivity|].
    pose proof (url_of_parts _ _ _ Hbase Hep) as Hurl.
    unfold save. rewrite Hser.
    assert (Hhas : hasId created = true)
      by (rewrite Hcreated'; unfold hasId; simpl; now rewrite Htruthy).
    rewrite Hhas. cbn [negb].
    replace (constructor created) with (constructor this)
      by (now rewrite Hcreated').
    rewrite Hurl. unfold HttpClient_patch, send.
    rewrite adoptIdentity_requests.
    now rewrite Hcreated'.
Qed.

(** X20. A missing configuration stops [save], [create] and [delete]
    before anything is sent: whether [serialize] throws (no resource
    type) or the URL cannot be built (no base URL), the error is thrown
    by the call itself, no request is made and the instance is as it
    was. *)
Theorem configuration_error_sends_nothing (this : Model) (e : JsError) :
  (serialize this = Throw e ->
   save' this = mkRun (Thrown e) this [] /\
   create' this = mkRun (Thrown e) this []) /\
  (forall payload,
      serialize this = Ok payload ->
      valueOf (getJsonApiUrl (constructor this)) = Throw e ->
      save' this = mkRun (Thrown e) this [] /\
      create' this = mkRun (Thrown e) this []) /\
  (persisted this ->
   valueOf (getJsonApiUrl (constructor this)) = Throw e ->
   delete' this = mkRun (Thrown e) this []).
Proof.
  split; [|split].
  - intros H. unfold save, create. rewrite H. now destruct (negb (hasId this)).
  - intros payload H Hurl. unfold save, create. rewrite H, Hurl.
    now destruct (negb (hasId this)).
  - intros Hp Hurl. apply hasId_persisted in Hp.
    unfold delete. now rewrite Hp, Hurl.
Qed.

(** X21. A failure of the transport reaches the caller as it is: when the
    transport rejects the request of [save], [create] or [delete] with
    an error, the promise of the call is rejected with that same error,
    the one request has been made, and the instance is as it was. *)
Theorem transport_failure_propagates (this : Model) (payload : Payload)
  (base ep : string) (e : JsError)
  (Hpayload : serialize this = Ok payload)
  (Hbase : valueOf (effectiveJsonApiBaseUrl (constructor this)) = Ok base)
  (Hep : valueOf (effectiveEndpoint (constructor this)) = Ok ep) :
  let url := base ++ "/" ++ ep in
  let idUrl := url ++ "/" ++ ApiId_toString (id this) in
  (persisted this ->
   client this (PatchRequest idUrl payload) = Rejected e ->
   save' this = mkRun (RejectedWith e) this [PatchRequest idUrl payload]) /\
  (client this (PostRequest url payload) = Rejected e ->
   create' this = mkRun (RejectedWith e) this [PostRequest url payload]) /\
  (persisted this ->
   client this (DeleteRequest idUrl) = Rejected e ->
   delete' this = mkRun (RejectedWith e) this [DeleteRequest idUrl]).
Proof.
  intros url idUrl.
  pose proof (url_of_parts _ _ _ Hbase Hep) as Hurl. fold url in Hurl.
  split; [|split].
  - intros Hp Hr. apply hasId_persisted in Hp.
    unfold save. rewrite Hp. cbn [negb]. rewrite Hpayload, Hurl.
    unfold HttpClient_patch, send, adoptIdentity. fold idUrl. now rewrite Hr.
  - intros Hr. unfold create. rewrite Hpayload, Hurl.
    unfold HttpClient_post, send, adoptIdentity. now rewrite Hr.
  - intros Hp Hr. apply hasId_persisted in Hp.
    unfold delete. rewrite Hp. cbn [negb]. rewrite Hurl.
    unfold HttpClient_delete, send. fold idUrl. now rewrite Hr.
Qed.

(** X22. A response with no [data] object turns a request that went
    through into a failure: when the transport resolves the request of
    [save] or [create] with such a document, the promise of the call is
    rejected with a [TypeError], although the request has been made, and
    the identity of the instance is as it was. *)
Theorem response_without_data_rejects (this : Model) (payload : Payload)
  (base ep : string) (response : HttpClientResponse)
  (Hpayload : serialize this = Ok payload)
  (Hbase : valueOf (effectiveJsonApiBaseUrl (constructor this)) = Ok base)
  (Hep : valueOf (effectiveEndpoint (constructor this)) = Ok ep)
  (Hnodata : doc_data (getData response) = None) :
  let url := base ++ "/" ++ ep in
  let idUrl := url ++ "/" ++ ApiId_toString (id this) in
  let error := TypeError "Cannot read properties of undefined (reading 'id')" in
  (persisted this ->
   client this (PatchRequest idUrl payload) = Resolved response ->
   save' this = mkRun (RejectedWith error) this [PatchRequest idUrl payload]) /\
  (client this (PostRequest url payload) = Resolved response ->
   create' this = mkRun (RejectedWith error) this [PostRequest url payload]).
Proof.
  intros url idUrl error.
  pose proof (url_of_parts _ _ _ Hbase Hep) as Hurl. fold url in Hurl.
  split.
  - intros Hp Hr. apply hasId_persisted in Hp.
    unfold save. rewrite Hp. cbn [negb]. rewrite Hpayload, Hurl.
    unfold HttpClient_patch, send, adoptIdentity, idFromJson. fold idUrl.
    now rewrite Hr, Hnodata.
  - intros Hr. unfold create. rewrite Hpayload, Hurl.
    unfold HttpClient_post, send, adoptIdentity, idFromJson.
    now rewrite Hr, Hnodata.
Qed.

(** X23. [fresh] computes the relation paths before it looks at the
    identity: on an instance with a relation slot that holds a truthy
    value that is no instance, [fresh] throws the [TypeError] of
    [getRelationsKeys], persisted or not, and sends nothing. *)
Theorem fresh_illformed_relations (this : Model)
  (Hrelations : relations_wellformed this = false) :
  fresh' this =
  mkRun (Thrown (TypeError "relation.getRelationsKeys is not a function")) this [].
Proof.
  unfold fresh. now rewrite getRelationsKeys_paths, Hrelations.
Qed.

(** X24. [fresh] passes a failure of the transport on as it is, and maps
    what the read finds: the promise is rejected with the error of the
    transport, or fulfilled with the instance that the read assembles,
    or with null when it assembles none. *)
Theorem fresh_outcomes (this : Model) (base ep : string)
  (Hrelations : relations_wellformed this = true)
  (Hpersisted : persisted this)
  (Hbase : valueOf (effectiveJsonApiBaseUrl (constructor this)) = Ok base)
  (Hep : valueOf (effectiveEndpoint (constructor this)) = Ok ep) :
  let sent := mkQuery [] [] (relationPaths this None) None [] in
  let request :=
    GetRequest ((base ++ "/" ++ ep) ++ "/" ++ ApiId_toString (id this)) sent in
  requests (fresh' this) = [request] /\
  this_after (fresh' this) = this /\
  completion (fresh' this) =
  match client this request with
  | Rejected e => RejectedWith e
  | Resolved response =>
      match assemble (mkBuilder (constructor this) sent) response with
      | Some model => Fulfilled (FreshModel model)
      | None => Fulfilled FreshNull
      end
  end.
Proof.
  intros sent request. apply hasId_persisted in Hpersisted.
  pose proof (url_of_parts _ _ _ Hbase Hep) as Hurl.
  unfold fresh. rewrite getRelationsKeys_paths, Hrelations.
  rewrite getApiId_truthy, Hpersisted.
  set (builder := Builder_with (query (Model_new (constructor this)))
                    (relationPaths this None)).
  rewrite (Builder_find_run AxiosHttpClient assemble builder
             (ApiId_toString (getApiId this)) _ Hurl).
  change (fst (effectiveHttpClient AxiosHttpClient (builder_modelType builder)))
    with (client this).
  unfold getApiId.
  change (GetRequest _ (builder_query builder)) with request.
  destruct (client this request) as [response|e]; [|repeat split].
  change builder with (mkBuilder (constructor this) sent).
  destruct (assemble _ response); repeat split.
Qed.

End MoreMethodFacts.

(** ** Concrete runs of the further properties *)

Lemma setAttribute_then_getAttribute_witness :
  let this' :=
    mkModel Samples.Artist (IdString "1")
      [("name", JsString "Joan"); ("created_at", JsString "2001-02-03");
       ("age", JsNumber 80)]
      (relations Samples.artist) in
  getAttribute SampleDates.Date_parse SampleDates.Date_new this' "name"
  = Ok (JsString "Joan") /\
  getAttribute SampleDates.Date_parse SampleDates.Date_new this' "age"
  = getAttribute SampleDates.Date_parse SampleDates.Date_new Samples.artist "age".
Proof.
  intros this'.
  destruct (setAttribute_then_getAttribute SampleDates.Date_parse
              SampleDates.Date_new SampleDates.String_of SampleDates.parseDate
              Samples.artist this' "name" (JsString "Joan") eq_refl)
    as (Hsame & Hothers & _).
  split; [now apply Hsame | apply Hothers; discriminate].
Defined.

Lemma setAttribute_date_then_getAttribute_witness :
  let this' :=
    mkModel Samples.Artist (IdString "1")
      [("name", JsString "Joni"); ("created_at", JsString "2001-02-03");
       ("age", JsNumber 80); ("birthday", JsDate (Some (-764985600000)%Z))]
      (relations Samples.artist) in
  getAttribute SampleDates.Date_parse SampleDates.Date_new this' "birthday"
  = Ok (JsDate (Some (-764985600000)%Z)).
Proof.
  intros this'.
  exact (proj2 (setAttribute_date_then_getAttribute SampleDates.Date_parse
                  SampleDates.Date_new SampleDates.String_of SampleDates.parseDate
                  Samples.artist this' "birthday" (JsString "1945-10-05")
                  eq_refl eq_refl)).
Defined.

Lemma getAttribute_unset_date_witness :
  getAttribute SampleDates.Date_parse SampleDates.Date_new Samples.artist "birthday"
  = Throw (Error "Attribute birthday cannot be cast to type Date").
Proof.
  exact (getAttribute_unset_date SampleDates.Date_parse SampleDates.Date_new
           Samples.artist "birthday" eq_refl eq_refl eq_refl).
Defined.

Lemma populateFromResource_merges_witness :
  let after :=
    fst (populateFromResource SampleDates.Date_parse SampleDates.String_of
           SampleDates.parseDate Samples.new_artist MoreSamples.resource_nina) in
  Map.get (attributes after) "name" = Some (JsString "Nina") /\
  Map.get (attributes after) "age" = Some (JsNumber 80) /\
  Map.get (attributes after) "birthday" = Some (JsDate (Some (-1163203200000)%Z)).
Proof.
  intros after.
  pose proof (populateFromResource_merges SampleDates.Date_parse
                SampleDates.String_of SampleDates.parseDate
                Samples.new_artist after MoreSamples.resource_nina eq_refl)
    as Hmerge.
  split; [exact (Hmerge "name")|]. split; [exact (Hmerge "age")|].
  exact (Hmerge "birthday").
Defined.

Lemma populateFromResource_error_witness :
  snd (populateFromResource SampleDates.Date_parse SampleDates.String_of
         SampleDates.parseDate Samples.new_artist MoreSamples.resource_epoch)
  = Some (Error "1970-01-01 cannot be cast to type Date") /\
  snd (populateFromResource SampleDates.Date_parse SampleDates.String_of
         SampleDates.parseDate Samples.album1 MoreSamples.resource_epoch)
  = None.
Proof.
  split; [reflexivity|].
  exact (proj2 (populateFromResource_error SampleDates.Date_parse
                  SampleDates.String_of SampleDates.parseDate
                  Samples.album1 MoreSamples.resource_epoch) eq_refl).
Defined.

Lemma create_then_save_witness :
  let created := this_after (create Samples.client_42 Samples.new_artist) in
  persisted created /\
  exists payload,
    serialize created = Ok payload /\
    pd_id (payload_data payload) = Some (IdString "42") /\
    requests (save Samples.client_42 created)
    = [PatchRequest "http://localhost:3000/api/v1/artists/42" payload].
Proof.
  assert (Hs : "42" <> "") by discriminate.
  exact (create_then_save Samples.client_42 Samples.new_artist _ "42"
           "http://localhost:3000/api/v1" "artists"
           eq_refl eq_refl Hs eq_refl eq_refl).
Defined.

Lemma configuration_error_sends_nothing_witness :
  save Samples.client_42 MoreSamples.song
  = mkRun (Thrown (Error "Expected Song to have property expect jsonApiType defined"))
      MoreSamples.song [] /\
  delete Samples.client_42 MoreSamples.tape
  = mkRun (Thrown (Error "Expected Tape to have static property 'jsonApiBaseUrl' defined"))
      MoreSamples.tape [].
Proof.
  split.
  - exact (proj1 (proj1 (configuration_error_sends_nothing Samples.client_42
                           MoreSamples.song _) eq_refl)).
  - assert (Hp : persisted MoreSamples.tape)
      by (exists "6"; split; [reflexivity | discriminate]).
    exact (proj2 (proj2 (configuration_error_sends_nothing Samples.client_42
                           MoreSamples.tape _)) Hp eq_refl).
Defined.

Lemma transport_failure_propagates_witness :
  save MoreSamples.client_rejecting Samples.artist
  = mkRun (RejectedWith MoreSamples.network_error) Samples.artist
      [PatchRequest "http://localhost:3000/api/v1/artists/1" Samples.artist_payload] /\
  delete MoreSamples.client_rejecting Samples.artist
  = mkRun (RejectedWith MoreSamples.network_error) Samples.artist
      [DeleteRequest "http://localhost:3000/api/v1/artists/1"].
Proof.
  assert (Hp : persisted Samples.artist)
    by (exists "1"; split; [reflexivity | discriminate]).
  destruct (transport_failure_propagates MoreSamples.client_rejecting
              Samples.artist Samples.artist_payload
              "http://localhost:3000/api/v1" "artists" MoreSamples.network_error
              eq_refl eq_refl eq_refl) as (Hsave & _ & Hdelete).
  split; [exact (Hsave Hp eq_refl) | exact (Hdelete Hp eq_refl)].
Defined.

Lemma response_without_data_rejects_witness :
  save MoreSamples.client_no_data Samples.artist
  = mkRun
      (RejectedWith (TypeError "Cannot read properties of undefined (reading 'id')"))
      Samples.artist
      [PatchRequest "http://localhost:3000/api/v1/artists/1" Samples.artist_payload].
Proof.
  assert (Hp : persisted Samples.artist)
    by (exists "1"; split; [reflexivity | discriminate]).
  exact (proj1 (response_without_data_rejects MoreSamples.client_no_data
                  Samples.artist Samples.artist_payload
                  "http://localhost:3000/api/v1" "artists"
                  (mkHttpClientResponse (mkDocument None))
                  eq_refl eq_refl eq_refl eq_refl) Hp eq_refl).
Defined.

Lemma fresh_illformed_relations_witness :
  fresh Samples.client_42 Samples.assemble_null MoreSamples.odd_post
  = mkRun (Thrown (TypeError "relation.getRelationsKeys is not a function"))
      MoreSamples.odd_post [].
Proof.
  exact (fresh_illformed_relations Samples.client_42 Samples.assemble_null
           MoreSamples.odd_post eq_refl).
Defined.

Lemma fresh_outcomes_witness :
  completion (fresh MoreSamples.client_rejecting Samples.assemble_null Samples.post2)
  = RejectedWith MoreSamples.network_error /\
  completion (fresh Samples.client_42 Samples.assemble_null Samples.post2)
  = Fulfilled FreshNull.
Proof.
  assert (Hp : persisted Samples.post2)
    by (exists "21"; split; [reflexivity | discriminate]).
  split.
  - exact (proj2 (proj2 (fresh_outcomes MoreSamples.client_rejecting
                           Samples.assemble_null Samples.post2
                           "http://localhost:3000/api/v1" "posts"
                           eq_refl Hp eq_refl eq_refl))).
  - exact (proj2 (proj2 (fresh_outcomes Samples.client_42
                           Samples.assemble_null Samples.post2
                           "http://localhost:3000/api/v1" "posts"
                           eq_refl Hp eq_refl eq_refl))).
Defined.

(** ** The axios transport *)

(** X17. Every verb of [AxiosHttpClient] calls the axios instance of the
    client with the same configuration: the two JSON:API headers, and the
    credentials flag as it was last set; a client built without an
    instance calls the one of [axios.create()], and until
    [setWithCredentials] is called the flag is undefined. *)
Theorem axios_calls_carry_config (AxiosInstance : Type)
  (axios_create : AxiosInstance) (given : option AxiosInstance)
  (url : string) (data : option Payload) :
  let headers :=
    [("Accept", "application/vnd.api+json");
     ("Content-type", "application/vnd.api+json")] in
  let carries (flag : option bool) (sent : AxiosInstance * Axios.Call) : Prop :=
    fst sent = (match given with Some i => i | None => axios_create end) /\
    Axios.cfg_withCredentials (Axios.configOf (snd sent)) = flag /\
    Axios.cfg_headers (Axios.configOf (snd sent)) = headers in
  let verbs (this : Axios.AxiosHttpClient AxiosInstance) :=
    [Axios.get this url; Axios.delete this url; Axios.head this url;
     Axios.post this url data; Axios.put this url data;
     Axios.patch this url data] in
  let built := Axios.new axios_create given in
  Forall (carries None) (verbs built) /\
  forall flag earlier,
    Forall (carries (Some flag))
      (verbs (Axios.setWithCredentials
                (Axios.setWithCredentials built earlier) flag)).
Proof.
  simpl. split; [|intros flag earlier]; repeat constructor.
Qed.
